(** * VisionCraft bot: the credit ledger and the flows that drive it

    A shallow embedding of [vision_craft_bot.py]: the [UserDataManager]
    class (the account ledger kept in [users_data] and rewritten to
    [users_data.json] after every mutation), the referral step of
    [start_command], the generation flow ([generate_video_command],
    [process_prompt]) and the broadcast loop ([admin_broadcast_send]).

    Python's mutable object becomes explicit state passing in a small
    state-and-exception monad.  A raised exception keeps the state reached
    so far, as in Python.  Calls that leave the process (the clock, the
    HTTP request, the Telegram API) are parameters giving their outcome. *)

From Stdlib Require Import ZArith List String Bool Lia.
From Stdlib Require Import DecimalString DecimalPos DecimalZ.
Import ListNotations.
Open Scope string_scope.
Open Scope Z_scope.

(** ** Python values *)

(** The exception classes that occur in the modelled code.  All of them
    derive from [Exception]. *)
Inductive exn : Type :=
| KeyError (key : string)
| TypeError
| AttributeError
| OverflowError
| ValueError
| RequestsTimeout        (* requests.exceptions.Timeout *)
| RequestsError          (* ConnectionError, HTTPError of raise_for_status, JSONDecodeError *)
| Forbidden              (* telegram.error.Forbidden *)
| BadRequest             (* telegram.error.BadRequest *)
| TimedOut               (* telegram.error.TimedOut *)
| NetworkError           (* telegram.error.NetworkError *)
| RetryAfter.            (* telegram.error.RetryAfter *)

Inductive result (A : Type) : Type :=
| Ok (a : A)
| Raise (e : exn).
Arguments Ok {A} a.
Arguments Raise {A} e.

(** [str(user_id)] for a Python [int]: decimal digits, with a leading minus
    sign for a negative number. *)
Definition str (z : Z) : string := NilZero.string_of_int (Z.to_int z).

(** ** Insertion-ordered dictionaries with string keys

    A Python [dict] keeps its keys in insertion order and assigning to an
    existing key keeps the key's position; [get_all_user_ids] and the
    broadcast loop observe that order. *)
Module Dict.
Section Defs.
Context {V : Type}.

Definition t : Type := list (string * V).

(** [d.get(k)] *)
Fixpoint get (d : t) (k : string) : option V :=
  match d with
  | [] => None
  | (k', v) :: d' => if String.eqb k k' then Some v else get d' k
  end.

(** [k in d] *)
Definition contains (d : t) (k : string) : bool :=
  match get d k with Some _ => true | None => false end.

(** [d[k] = v] *)
Fixpoint set (d : t) (k : string) (v : V) : t :=
  match d with
  | [] => [(k, v)]
  | (k', v') :: d' =>
      if String.eqb k k' then (k', v) :: d' else (k', v') :: set d' k v
  end.

(** [list(d.keys())] *)
Definition keys (d : t) : list string := map fst d.
End Defs.
Arguments t V : clear implicits.
End Dict.

(** ** Time

    A naive [datetime] is the number of microseconds since [datetime.min]
    (0001-01-01T00:00:00); [datetime_max] is 9999-12-31T23:59:59.999999.
    [last_bonus_claim] is stored as the ISO-8601 text of such a value;
    [isoformat] and [fromisoformat] are inverse to each other on it, so the
    field is kept in parsed form. *)
Definition datetime : Type := Z.
Definition timedelta : Type := Z.

Definition datetime_max : datetime := 315537897599999999.

Definition timedelta_hours (h : Z) : timedelta := h * 3600 * 1000000.

(** [t + d] on [datetime]: [OverflowError] outside the representable
    range. *)
Definition datetime_add (t : datetime) (d : timedelta) : result datetime :=
  if (0 <=? t + d) && (t + d <=? datetime_max) then Ok (t + d)
  else Raise OverflowError.

(** ** Configuration *)

Definition STARTING_CREDITS : Z := 50.
Definition VIDEO_COST : Z := 10.
Definition DAILY_BONUS : Z := 20.
Definition REFERRAL_BONUS : Z := 30.

(** ** The state-and-exception monad *)

Definition M (S A : Type) : Type := S -> result A * S.

Definition ret {S A : Type} (a : A) : M S A := fun s => (Ok a, s).

Definition bind {S A B : Type} (c : M S A) (k : A -> M S B) : M S B :=
  fun s =>
    match c s with
    | (Ok a, s') => k a s'
    | (Raise e, s') => (Raise e, s')
    end.

Definition raise {S A : Type} (e : exn) : M S A := fun s => (Raise e, s).

Definition gets {S A : Type} (f : S -> A) : M S A := fun s => (Ok (f s), s).

Definition modify {S : Type} (f : S -> S) : M S unit := fun s => (Ok tt, f s).

(** The value of an expression that may raise. *)
Definition lift_result {S A : Type} (r : result A) : M S A := fun s => (r, s).

(** [try: body  except <classes>: handler].  [handler e] is [None] when no
    [except] clause matches [e], which then propagates. *)
Definition try_except {S A : Type}
    (body : M S A) (handler : exn -> option (M S A)) : M S A :=
  fun s =>
    match body s with
    | (Ok a, s') => (Ok a, s')
    | (Raise e, s') =>
        match handler e with
        | Some h => h s'
        | None => (Raise e, s')
        end
    end.

(** [try: body  finally: cleanup] *)
Definition try_finally {S A : Type} (body : M S A) (cleanup : M S unit) : M S A :=
  fun s =>
    match body s with
    | (r, s') =>
        match cleanup s' with
        | (Ok _, s'') => (r, s'')
        | (Raise e, s'') => (Raise e, s'')
        end
    end.

(** Run a computation on a component of the state. *)
Definition zoom {S T A : Type} (proj : T -> S) (upd : S -> T -> T)
    (c : M S A) : M T A :=
  fun t => match c (proj t) with (r, s') => (r, upd s' t) end.

Declare Scope py_scope.
Delimit Scope py_scope with py.
Notation "x <- c ;; k" := (bind c (fun x => k))
  (at level 61, c at next level, right associativity) : py_scope.
Notation "c ;; k" := (bind c (fun _ => k))
  (at level 61, right associativity) : py_scope.
Open Scope py_scope.

(** ** The ledger: [class UserDataManager] *)

(** One record of [users_data], with the four keys [add_user] creates.
    [None] is Python's [None] (JSON [null]). *)
Record user : Type := mkUser {
  credits : Z;
  videos_created : Z;
  last_bonus_claim : option datetime;
  referred_by : option Z
}.

Definition set_credits (u : user) (c : Z) : user :=
  mkUser c (videos_created u) (last_bonus_claim u) (referred_by u).
Definition set_videos_created (u : user) (n : Z) : user :=
  mkUser (credits u) n (last_bonus_claim u) (referred_by u).
Definition set_last_bonus_claim (u : user) (t : option datetime) : user :=
  mkUser (credits u) (videos_created u) t (referred_by u).
Definition set_referred_by (u : user) (r : option Z) : user :=
  mkUser (credits u) (videos_created u) (last_bonus_claim u) r.

(** The manager object: the in-memory dictionary, and the content of the
    file at [file_path] ([None] while the file does not exist). *)
Record UserDataManager : Type := mkManager {
  users_data : Dict.t user;
  db_file : option (Dict.t user)
}.

Definition Ledger : Type -> Type := M UserDataManager.

(** [self.users_data[k]], raising [KeyError] on a missing key. *)
Definition users_data_getitem (k : string) : Ledger user :=
  fun self =>
    match Dict.get (users_data self) k with
    | Some u => (Ok u, self)
    | None => (Raise (KeyError k), self)
    end.

(** [self.users_data[k] = u] *)
Definition users_data_setitem (k : string) (u : user) : Ledger unit :=
  modify (fun self => mkManager (Dict.set (users_data self) k u) (db_file self)).

Definition _load_data (disk : option (Dict.t user)) : Dict.t user :=
  match disk with
  | None => []
  | Some d => d
  end.

(** [UserDataManager(file_path)] on a disk holding [disk]. *)
Definition __init__ (disk : option (Dict.t user)) : UserDataManager :=
  mkManager (_load_data disk) disk.

Definition _save_data : Ledger unit :=
  modify (fun self => mkManager (users_data self) (Some (users_data self))).

Definition add_user (user_id : Z) : Ledger bool :=
  let user_id_str := str user_id in
  present <- gets (fun self => Dict.contains (users_data self) user_id_str) ;;
  if negb present then
    users_data_setitem user_id_str
      {| credits := STARTING_CREDITS; videos_created := 0;
         last_bonus_claim := None; referred_by := None |} ;;
    _save_data ;;
    ret true
  else ret false.

Definition get_user (user_id : Z) : Ledger (option user) :=
  gets (fun self => Dict.get (users_data self) (str user_id)).

Definition get_all_user_ids : Ledger (list string) :=
  gets (fun self => Dict.keys (users_data self)).

(** Returns the new balance, or Python's implicit [None] when the account
    does not exist. *)
Definition update_credits (user_id : Z) (amount : Z) : Ledger (option Z) :=
  let user_id_str := str user_id in
  present <- gets (fun self => Dict.contains (users_data self) user_id_str) ;;
  if present then
    u <- users_data_getitem user_id_str ;;
    users_data_setitem user_id_str (set_credits u (credits u + amount)) ;;
    _save_data ;;
    u' <- users_data_getitem user_id_str ;;
    ret (Some (credits u'))
  else ret None.

Definition record_video_generation (user_id : Z) : Ledger unit :=
  let user_id_str := str user_id in
  present <- gets (fun self => Dict.contains (users_data self) user_id_str) ;;
  if present then
    u <- users_data_getitem user_id_str ;;
    users_data_setitem user_id_str (set_videos_created u (videos_created u + 1)) ;;
    _save_data
  else ret tt.

(** [now] is the value of [datetime.utcnow()] read on line 95. *)
Definition can_claim_bonus (now : datetime) (user_id : Z) : Ledger bool :=
  user <- get_user user_id ;;
  match user with
  | None => ret true
  | Some u =>
      match last_bonus_claim u with
      | None => ret true
      | Some last_claim_time =>
          deadline <- lift_result (datetime_add last_claim_time (timedelta_hours 24)) ;;
          ret (deadline <=? now)
      end
  end.

(** [now_check] is the clock as read inside [can_claim_bonus], [now_claim]
    the clock as read by the assignment on line 100; its right-hand side is
    evaluated before the subscript [self.users_data[user_id_str]]. *)
Definition claim_bonus (now_check now_claim : datetime) (user_id : Z) : Ledger bool :=
  let user_id_str := str user_id in
  eligible <- can_claim_bonus now_check user_id ;;
  if eligible then
    u <- users_data_getitem user_id_str ;;
    users_data_setitem user_id_str (set_last_bonus_claim u (Some now_claim)) ;;
    _ <- update_credits user_id DAILY_BONUS ;;
    _save_data ;;
    ret true
  else ret false.

Definition set_referrer (user_id : Z) (referrer_id : Z) : Ledger bool :=
  let user_id_str := str user_id in
  present <- gets (fun self => Dict.contains (users_data self) user_id_str) ;;
  if present then
    u <- users_data_getitem user_id_str ;;
    match referred_by u with
    | None =>
        users_data_setitem user_id_str (set_referred_by u (Some referrer_id)) ;;
        _save_data ;;
        ret true
    | Some _ => ret false
    end
  else ret false.

(** ** The handlers

    [db_manager] is the module-level manager object.  The outbox records
    what the broadcast handler hands to the Telegram API, in order. *)

Inductive event : Type :=
| CopyAttempt (user_id : string)        (* broadcast_message.copy(chat_id=int(user_id)) *)
| BroadcastReport (sent failed : Z).    (* the report of line 328, when it is sent *)

Record Bot : Type := mkBot {
  db_manager : UserDataManager;
  outbox : list event
}.

Definition Handler : Type -> Type := M Bot.

(** A method call on [db_manager]. *)
Definition db {A : Type} (c : Ledger A) : Handler A :=
  zoom db_manager (fun m b => mkBot m (outbox b)) c.

(** An awaited call of the Telegram API whose outcome is [o]: it returns,
    or raises the given exception. *)
Definition await (o : option exn) : Handler unit :=
  match o with
  | None => ret tt
  | Some e => raise e
  end.

Definition log (e : event) : Handler unit :=
  modify (fun b => mkBot (db_manager b) (outbox b ++ [e])%list).

(** [(PROMPT_INPUT, BROADCAST_MESSAGE) = range(2)] and
    [ConversationHandler.END]. *)
Definition PROMPT_INPUT : Z := 0.
Definition BROADCAST_MESSAGE : Z := 1.
Definition ConversationHandler_END : Z := -1.

(** *** [start_command] *)

(** Each admin is notified inside [try ... except Exception], so nothing
    escapes and the ledger is only read. *)
Definition send_admin_notification : Handler unit :=
  _ <- db get_all_user_ids ;;
  ret tt.

Record start_env : Type := {
  is_user_member_of_channel : bool;   (* already fails closed on any error *)
  notify_referrer : option exn;       (* send_message to the referrer, line 133 *)
  welcome_reply : option exn;         (* reply_text, line 135 *)
  show_main_menu : option exn;        (* line 138 *)
  access_denied_reply : option exn    (* reply_text, line 144 *)
}.

(** [referrer_id] is [int(context.args[0])] when the argument is all
    digits, else [None]. *)
Definition start_command (env : start_env) (user_id : Z) (referrer_id : option Z)
  : Handler unit :=
  if is_user_member_of_channel env then
    is_new_user <- db (add_user user_id) ;;
    (if is_new_user then
       match referrer_id with
       | Some r =>
           if negb (r =? 0) && negb (r =? user_id) then
             referred <- db (set_referrer user_id r) ;;
             if referred then
               _ <- db (update_credits r REFERRAL_BONUS) ;;
               await (notify_referrer env)
             else ret tt
           else ret tt
       | None => ret tt
       end ;;
       send_admin_notification ;;
       await (welcome_reply env)
     else ret tt) ;;
    await (show_main_menu env)
  else await (access_denied_reply env).

(** *** The generation flow *)

(** A parsed JSON document, as [response.json()] returns it. *)
#[local] Set Warnings "-register-all".
Inductive json : Type :=
| JNull
| JBool (b : bool)
| JInt (n : Z)
| JFloat (mantissa exponent : Z)
| JString (s : string)
| JArray (items : list json)
| JObject (fields : Dict.t json).

(** Python truthiness. *)
Definition truthy (v : json) : bool :=
  match v with
  | JNull => false
  | JBool b => b
  | JInt n => negb (n =? 0)
  | JFloat m _ => negb (m =? 0)
  | JString s => negb (String.eqb s "")
  | JArray items => match items with [] => false | _ :: _ => true end
  | JObject fields => match fields with [] => false | _ :: _ => true end
  end.

(** [data.get(key)]: only a [dict] has the method. *)
Definition json_get (data : json) (key : string) : result json :=
  match data with
  | JObject fields =>
      match Dict.get fields key with
      | Some v => Ok v
      | None => Ok JNull
      end
  | _ => Raise AttributeError
  end.

(** What lines 218-220 can do. *)
Inductive http_outcome : Type :=
| HttpTimeout              (* requests.get raises Timeout after 120 s *)
| HttpFailure              (* requests.get raises another exception *)
| HttpStatusError          (* raise_for_status raises on a non-2xx status *)
| HttpBodyNotJson          (* response.json() raises *)
| HttpJson (data : json).

Definition http_get (o : http_outcome) : result json :=
  match o with
  | HttpTimeout => Raise RequestsTimeout
  | HttpFailure => Raise RequestsError
  | HttpStatusError => Raise RequestsError
  | HttpBodyNotJson => Raise RequestsError
  | HttpJson data => Ok data
  end.

Definition generate_video_command (reply : option exn) (user_id : Z) : Handler Z :=
  user_data <- db (get_user user_id) ;;
  match user_data with
  | None => raise TypeError                      (* None['credits'] *)
  | Some u =>
      if credits u <? VIDEO_COST then
        await reply ;;
        ret ConversationHandler_END
      else
        await reply ;;
        ret PROMPT_INPUT
  end.

Record prompt_env : Type := {
  processing_msg : option exn;        (* send_message, line 214 *)
  api_response : http_outcome;        (* lines 218-220 *)
  send_video : option exn;            (* line 225 *)
  unsuccessful_notice : option exn;   (* send_message, line 231 *)
  timeout_notice : option exn;        (* send_message, line 233 *)
  error_notice : option exn;          (* send_message, line 236 *)
  delete_processing_msg : option exn  (* delete_message, line 238 *)
}.

Definition process_prompt (env : prompt_env) (user_id : Z) : Handler Z :=
  await (processing_msg env) ;;
  try_finally
    (try_except
       (data <- lift_result (http_get (api_response env)) ;;
        success <- lift_result (json_get data "success") ;;
        if truthy success then
          _ <- db (update_credits user_id (- VIDEO_COST)) ;;
          db (record_video_generation user_id) ;;
          await (send_video env)
        else
          await (unsuccessful_notice env))
       (fun e =>
          match e with
          | RequestsTimeout => Some (await (timeout_notice env))
          | _ => Some (await (error_notice env))
          end))
    (await (delete_processing_msg env)) ;;
  ret ConversationHandler_END.

(** *** [claim_bonus_callback] *)

Definition claim_bonus_callback (now_check now_claim : datetime)
    (answer : option exn) (user_id : Z) : Handler unit :=
  claimed <- db (claim_bonus now_check now_claim user_id) ;;
  if claimed then
    u <- db (get_user user_id) ;;
    match u with
    | None => raise TypeError
    | Some _ => await answer
    end
  else await answer.

(** *** [admin_broadcast_send] *)

(** The classes named by [except (Forbidden, BadRequest)]. *)
Definition blocked_the_bot (e : exn) : bool :=
  match e with
  | Forbidden | BadRequest => true
  | _ => false
  end.

(** The [for] statement of lines 323-327.  [copy user_id] is the outcome of
    evaluating [context.user_data['broadcast_message'].copy(chat_id=int(user_id))]:
    it returns, or it raises ([KeyError] and [ValueError] from the lookup
    and the conversion, the Telegram errors from the call).  The pause of
    line 327 has no effect on the state. *)
Fixpoint broadcast_loop (copy : string -> option exn) (ids : list string)
    (sent failed : Z) : Handler (Z * Z) :=
  match ids with
  | [] => ret (sent, failed)
  | user_id :: rest =>
      counts <- try_except
                  (log (CopyAttempt user_id) ;;
                   await (copy user_id) ;;
                   ret (sent + 1, failed))
                  (fun e =>
                     if blocked_the_bot e then Some (ret (sent, failed + 1))
                     else None) ;;
      broadcast_loop copy rest (fst counts) (snd counts)
  end.

Record broadcast_env : Type := {
  answer_query : option exn;          (* query.answer, line 321 *)
  edit_message : option exn;          (* query.edit_message_text, line 321 *)
  copy_message : string -> option exn;
  send_report : option exn;           (* send_message, line 329 *)
  broadcast_menu : option exn         (* show_main_menu, line 330 *)
}.

Definition admin_broadcast_send (env : broadcast_env) : Handler unit :=
  await (answer_query env) ;;
  await (edit_message env) ;;
  ids <- db get_all_user_ids ;;
  counts <- broadcast_loop (copy_message env) ids 0 0 ;;
  await (send_report env) ;;
  log (BroadcastReport (fst counts) (snd counts)) ;;
  await (broadcast_menu env).

(** *** [check_join_callback] *)

Record join_env : Type := {
  join_answer : option exn;            (* query.answer, line 155 *)
  join_is_member : bool;               (* is_user_member_of_channel, line 157 *)
  join_access_granted : option exn;    (* query.edit_message_text, line 158 *)
  join_notify_referrer : option exn;   (* send_message to the referrer, line 164 *)
  join_menu : option exn;              (* show_main_menu, line 167 *)
  join_alert : option exn              (* query.answer, line 169 *)
}.

(** [referrer_id] is the number after the last underscore of the callback
    data, [None] when that text is ['None']. *)
Definition check_join_callback (env : join_env) (user_id : Z)
    (referrer_id : option Z) : Handler unit :=
  await (join_answer env) ;;
  if join_is_member env then
    await (join_access_granted env) ;;
    is_new_user <- db (add_user user_id) ;;
    (if is_new_user then
       match referrer_id with
       | Some r =>
           if negb (r =? 0) && negb (r =? user_id) then
             referred <- db (set_referrer user_id r) ;;
             if referred then
               _ <- db (update_credits r REFERRAL_BONUS) ;;
               try_except (await (join_notify_referrer env))
                 (fun e =>
                    match e with
                    | Forbidden => Some (ret tt)    (* logger.warning *)
                    | _ => None
                    end)
             else ret tt
           else ret tt
       | None => ret tt
       end ;;
       send_admin_notification
     else ret tt) ;;
    await (join_menu env)
  else await (join_alert env).

(** *** [send_admin_notification], admin by admin *)

Module Admin.

(** The [for] statement of lines 178-182: [send admin_id] is the outcome
    of the [send_message] to that admin, and [except Exception] takes
    whatever it raises. *)
Fixpoint notify_each (send : Z -> option exn) (admins : list Z) : Handler unit :=
  match admins with
  | [] => ret tt
  | admin_id :: rest =>
      try_except (await (send admin_id))
        (fun _ => Some (ret tt)) ;;               (* logger.error *)
      notify_each send rest
  end.

Definition send_admin_notification (ADMIN_IDS : list Z) (send : Z -> option exn)
  : Handler unit :=
  _ <- db get_all_user_ids ;;                     (* total_users *)
  notify_each send ADMIN_IDS.

End Admin.

(** *** [my_account_command] *)

Definition my_account_command (reply : option exn) (user_id : Z) : Handler unit :=
  user_data <- db (get_user user_id) ;;
  match user_data with
  | None => raise TypeError                      (* None['credits'] *)
  | Some _ => await reply
  end.

(** ** Vocabulary of the statements *)

(** The account stored under [str(user_id)]. *)
Definition account (self : UserDataManager) (user_id : Z) : option user :=
  Dict.get (users_data self) (str user_id).

(** The record [add_user] creates. *)
Definition new_account : user :=
  {| credits := STARTING_CREDITS; videos_created := 0;
     last_bonus_claim := None; referred_by := None |}.

(** The manager after [self.users_data[str(user_id)] = u] and a save. *)
Definition stored (self : UserDataManager) (user_id : Z) (u : user) : UserDataManager :=
  let d := Dict.set (users_data self) (str user_id) u in
  mkManager d (Some d).

(** The calls a client can make on the ledger, and the manager a call
    leaves behind, whether it returned or raised. *)
Inductive ledger_call : Type :=
| AddUser (user_id : Z)
| UpdateCredits (user_id amount : Z)
| RecordVideoGeneration (user_id : Z)
| ClaimBonus (now_check now_claim : datetime) (user_id : Z)
| SetReferrer (user_id referrer_id : Z).

Definition after_call (c : ledger_call) (self : UserDataManager) : UserDataManager :=
  match c with
  | AddUser i => snd (add_user i self)
  | UpdateCredits i a => snd (update_credits i a self)
  | RecordVideoGeneration i => snd (record_video_generation i self)
  | ClaimBonus t1 t2 i => snd (claim_bonus t1 t2 i self)
  | SetReferrer i r => snd (set_referrer i r self)
  end.

Definition after_calls (cs : list ledger_call) (self : UserDataManager) : UserDataManager :=
  fold_left (fun s c => after_call c s) cs self.

(** The test of line 222 on the outcome of the request: the body parsed
    to a JSON object whose ["success"] entry is truthy. *)
Definition reports_success (o : http_outcome) : bool :=
  match o with
  | HttpJson (JObject fields) =>
      match Dict.get fields "success" with
      | Some v => truthy v
      | None => false
      end
  | _ => false
  end.


(** Deliveries of a broadcast that return, and deliveries that raise. *)
Fixpoint delivered (copy : string -> option exn) (ids : list string) : Z :=
  match ids with
  | [] => 0
  | i :: rest =>
      (match copy i with None => 1 | Some _ => 0 end) + delivered copy rest
  end.

Fixpoint undelivered (copy : string -> option exn) (ids : list string) : Z :=
  match ids with
  | [] => 0
  | i :: rest =>
      (match copy i with None => 0 | Some _ => 1 end) + undelivered copy rest
  end.

(** Every failed delivery is one the handler's [except] clause names. *)
Definition failures_blocked (copy : string -> option exn) (ids : list string) : Prop :=
  forall i e, In i ids -> copy i = Some e -> blocked_the_bot e = true.

(** [last_claim_time + timedelta(hours=24)] is a representable
    [datetime]. *)
Definition deadline_representable (t : datetime) : Prop :=
  0 <= t /\ t + timedelta_hours 24 <= datetime_max.

(** Concrete managers and clock readings used in the examples: a ledger
    started without a file, the same after user 7 has joined, and
    2024-01-01T00:00:00. *)
Definition no_accounts : UserDataManager := __init__ None.
Definition only_user_7 : UserDataManager := snd (add_user 7 no_accounts).
Definition new_year_2024 : datetime := 63839664000000000.

(** The record stored under key [k] names [r] as its referrer. *)
Definition referred (self : UserDataManager) (k : string) (r : Z) : Prop :=
  exists u, Dict.get (users_data self) k = Some u /\ referred_by u = Some r.

(** A bot with the accounts of users 1, 2 and 3, joined in that order, and
    a broadcast in which only the delivery to user 2 raises [e]. *)
Definition three_users : Bot :=
  mkBot (after_calls [AddUser 1; AddUser 2; AddUser 3] no_accounts) [].

Definition second_fails_with (e : exn) (user_id : string) : option exn :=
  if String.eqb user_id "2" then Some e else None.

(** The account after one paid generation. *)
Definition charged (u : user) : user :=
  mkUser (credits u - VIDEO_COST) (videos_created u + 1)
         (last_bonus_claim u) (referred_by u).

(** Outcomes of the Telegram calls and of the request in which everything
    is delivered and the endpoint answers with [data]. *)
Definition all_delivered (data : json) : prompt_env :=
  {| processing_msg := None; api_response := HttpJson data;
     send_video := None; unsuccessful_notice := None; timeout_notice := None;
     error_notice := None; delete_processing_msg := None |}.

Definition video_ready : json :=
  JObject [("success", JBool true); ("url", JString "https://example.org/v.mp4")].

Definition broadcast_where_second_fails_with (e : exn) : broadcast_env :=
  {| answer_query := None; edit_message := None;
     copy_message := second_fails_with e;
     send_report := None; broadcast_menu := None |}.

(** The id a ledger call names. *)
Definition target (c : ledger_call) : Z :=
  match c with
  | AddUser i | UpdateCredits i _ | RecordVideoGeneration i
  | ClaimBonus _ _ i | SetReferrer i _ => i
  end.

(** What a ledger call may do to the record of an existing account. *)
Record evolves (u0 u : user) : Prop := mkEvolves {
  videos_never_drop : videos_created u0 <= videos_created u;
  referrer_kept : forall r, referred_by u0 = Some r -> referred_by u = Some r
}.

(** What a ledger call on [i] may do to the manager: nothing, create the
    account of [i], or rewrite it. *)
Inductive ledger_step (i : Z) (self : UserDataManager) : UserDataManager -> Prop :=
| step_unchanged : ledger_step i self self
| step_created :
    account self i = None -> ledger_step i self (stored self i new_account)
| step_updated u0 u :
    account self i = Some u0 -> evolves u0 u -> ledger_step i self (stored self i u).

(** The file holds what the manager holds: loading it gives [users_data]. *)
Definition in_sync (self : UserDataManager) : Prop :=
  _load_data (db_file self) = users_data self.

(** The ledger after a member has been admitted with the start parameter
    [referrer_id]: lines 129-132 and 159-162. *)
Definition admitted (m : UserDataManager) (user_id : Z) (referrer_id : option Z)
  : UserDataManager :=
  match account m user_id with
  | Some _ => m
  | None =>
      match referrer_id with
      | Some r =>
          if negb (r =? 0) && negb (r =? user_id) then
            let m2 := stored m user_id
                        (mkUser STARTING_CREDITS 0 None (Some r)) in
            match account m r with
            | Some ur => stored m2 r (set_credits ur (credits ur + REFERRAL_BONUS))
            | None => m2
            end
          else stored m user_id new_account
      | None => stored m user_id new_account
      end
  end.

(** More concrete inputs for the examples: the ledger in which user 3 has
    an account, and Telegram outcomes in which every call returns. *)
Definition only_user_3 : UserDataManager := snd (add_user 3 no_accounts).

Definition member_start : start_env :=
  {| is_user_member_of_channel := true; notify_referrer := None;
     welcome_reply := None; show_main_menu := None;
     access_denied_reply := None |}.

Definition member_join : join_env :=
  {| join_answer := None; join_is_member := true; join_access_granted := None;
     join_notify_referrer := None; join_menu := None; join_alert := None |}.

(** A handler step that never changes the bot's state, whether it returns
    or raises. *)
Definition inert {A : Type} (h : Handler A) : Prop :=
  forall b, snd (h b) = b.

(** A handler step that never changes the ledger, whether it returns or
    raises. *)
Definition keeps_ledger {A : Type} (h : Handler A) : Prop :=
  forall b, db_manager (snd (h b)) = db_manager b.

(** Outcomes of the Telegram calls of [process_prompt] in which the
    request times out and the notices are delivered. *)
Definition request_times_out : prompt_env :=
  {| processing_msg := None; api_response := HttpTimeout;
     send_video := None; unsuccessful_notice := None; timeout_notice := None;
     error_notice := None; delete_processing_msg := None |}.

(** A handler step that returns, from every state. *)
Definition completes {A : Type} (h : Handler A) : Prop :=
  forall b, exists a, fst (h b) = Ok a.

(** Clock readings in microseconds: 2024-01-02T00:00:00, 2024-01-02T06:00:00
    and 2024-01-03T06:00:00. *)
Definition jan_2_midnight : datetime := 63839750400000000.
Definition jan_2_six : datetime := 63839772000000000.
Definition jan_3_six : datetime := 63839858400000000.

(** User 7 after a claim stamped 2024-01-01T00:00:00, and after a second
    claim stamped 2024-01-02T06:00:00. *)
Definition claimed_on_new_year : UserDataManager :=
  stored only_user_7 7 (mkUser 70 0 (Some new_year_2024) None).

Definition claimed_again : UserDataManager :=
  stored claimed_on_new_year 7 (mkUser 90 0 (Some jan_2_six) None).



(** ** Facts about dictionaries *)

Module DictFacts.
Section Facts.
Context {V : Type}.
Implicit Types (d : Dict.t V) (k : string) (v : V).

Lemma get_set_same d k v : Dict.get (Dict.set d k v) k = Some v.
Proof.
  induction d as [|[k' v'] d IH]; simpl.
  - now rewrite String.eqb_refl.
  - destruct (String.eqb k k') eqn:E; simpl; rewrite E; auto.
Qed.

Lemma get_set_other d k k' v :
  k' <> k -> Dict.get (Dict.set d k v) k' = Dict.get d k'.
Proof.
  intros Hne. induction d as [|[k0 v0] d IH]; simpl.
  - apply String.eqb_neq in Hne. now rewrite Hne.
  - destruct (String.eqb k k0) eqn:E; simpl.
    + apply String.eqb_eq in E. subst k0.
      apply String.eqb_neq in Hne. now rewrite Hne.
    + now rewrite IH.
Qed.

Lemma set_set d k v v' : Dict.set (Dict.set d k v) k v' = Dict.set d k v'.
Proof.
  induction d as [|[k0 v0] d IH]; simpl.
  - now rewrite String.eqb_refl.
  - destruct (String.eqb k k0) eqn:E; simpl; rewrite E; [reflexivity|].
    now rewrite IH.
Qed.

Lemma keys_set_present d k v u :
  Dict.get d k = Some u -> Dict.keys (Dict.set d k v) = Dict.keys d.
Proof.
  unfold Dict.keys.
  induction d as [|[k0 v0] d IH]; simpl; [discriminate|].
  destruct (String.eqb k k0) eqn:E; simpl; [reflexivity|].
  intros H. f_equal. now apply IH.
Qed.

Lemma keys_set_absent d k v :
  Dict.get d k = None -> Dict.keys (Dict.set d k v) = (Dict.keys d ++ [k])%list.
Proof.
  unfold Dict.keys.
  induction d as [|[k0 v0] d IH]; simpl; [reflexivity|].
  destruct (String.eqb k k0) eqn:E; simpl; [discriminate|].
  intros H. f_equal. now apply IH.
Qed.

Lemma contains_get d k :
  Dict.contains d k = match Dict.get d k with Some _ => true | None => false end.
Proof. reflexivity. Qed.
End Facts.
End DictFacts.

(** [str] is injective: distinct user ids never share a record. *)
Lemma str_inj (a b : Z) : str a = str b -> a = b.
Proof.
  unfold str. intros H.
  assert (Hn : forall z, NilZero.int_of_string (NilZero.string_of_int (Z.to_int z))
                         = Some (Z.to_int z)).
  { intros z. apply NilZero.isi; destruct z; simpl; try discriminate;
      intros E; injection E as E;
      match type of E with
      | Pos.to_uint ?p = _ =>
          pose proof (Unsigned.to_uint_nonnil p); congruence
      end. }
  pose proof (Hn a) as Ha. rewrite H, Hn in Ha.
  injection Ha as Ha.
  rewrite <- (DecimalZ.of_to a), <- (DecimalZ.of_to b). now rewrite Ha.
Qed.

(** ** The ledger operations as equations on the manager *)

Ltac run_ledger :=
  cbv beta iota zeta delta
    [add_user update_credits record_video_generation can_claim_bonus
     claim_bonus set_referrer get_user get_all_user_ids
     bind gets modify ret raise lift_result users_data_getitem
     users_data_setitem _save_data Dict.contains account stored];
  cbn [users_data db_file fst snd].

Section LedgerEquations.
Variables (self : UserDataManager) (user_id : Z).

Lemma add_user_eq :
  add_user user_id self =
  match account self user_id with
  | None => (Ok true, stored self user_id new_account)
  | Some _ => (Ok false, self)
  end.
Proof.
  run_ledger. destruct (Dict.get (users_data self) (str user_id)); reflexivity.
Qed.

Lemma get_user_eq : get_user user_id self = (Ok (account self user_id), self).
Proof. reflexivity. Qed.

Lemma update_credits_eq (amount : Z) :
  update_credits user_id amount self =
  match account self user_id with
  | Some u => (Ok (Some (credits u + amount)),
               stored self user_id (set_credits u (credits u + amount)))
  | None => (Ok None, self)
  end.
Proof.
  run_ledger.
  destruct (Dict.get (users_data self) (str user_id)) as [u|] eqn:E; [|reflexivity].
  now rewrite E, DictFacts.get_set_same.
Qed.

Lemma record_video_generation_eq :
  record_video_generation user_id self =
  match account self user_id with
  | Some u => (Ok tt, stored self user_id (set_videos_created u (videos_created u + 1)))
  | None => (Ok tt, self)
  end.
Proof.
  run_ledger.
  destruct (Dict.get (users_data self) (str user_id)) as [u|] eqn:E;
    rewrite ?E; reflexivity.
Qed.

Lemma set_referrer_eq (referrer_id : Z) :
  set_referrer user_id referrer_id self =
  match account self user_id with
  | Some u =>
      match referred_by u with
      | None => (Ok true, stored self user_id (set_referred_by u (Some referrer_id)))
      | Some _ => (Ok false, self)
      end
  | None => (Ok false, self)
  end.
Proof.
  run_ledger.
  destruct (Dict.get (users_data self) (str user_id)) as [u|] eqn:E;
    rewrite ?E; [|reflexivity].
  destruct (referred_by u); reflexivity.
Qed.

Lemma can_claim_bonus_eq (now : datetime) :
  can_claim_bonus now user_id self =
  (match account self user_id with
   | None => Ok true
   | Some u =>
       match last_bonus_claim u with
       | None => Ok true
       | Some last_claim_time =>
           match datetime_add last_claim_time (timedelta_hours 24) with
           | Ok deadline => Ok (deadline <=? now)
           | Raise e => Raise e
           end
       end
   end, self).
Proof.
  run_ledger.
  destruct (Dict.get (users_data self) (str user_id)) as [u|]; [|reflexivity].
  destruct (last_bonus_claim u) as [t|]; [|reflexivity].
  destruct (datetime_add t (timedelta_hours 24)); reflexivity.
Qed.

End LedgerEquations.

Section ClaimBonusEquations.
Variables (self : UserDataManager) (user_id : Z).

(** The account a successful claim leaves behind. *)
Lemma claim_bonus_granted (now_check now_claim : datetime) (u : user) :
  account self user_id = Some u ->
  fst (can_claim_bonus now_check user_id self) = Ok true ->
  claim_bonus now_check now_claim user_id self =
  (Ok true,
   stored self user_id
     (mkUser (credits u + DAILY_BONUS) (videos_created u)
             (Some now_claim) (referred_by u))).
Proof.
  intros Hacc Hcan. unfold claim_bonus.
  unfold bind at 1.
  rewrite can_claim_bonus_eq in Hcan |- *. cbn [fst] in Hcan. rewrite Hcan.
  unfold bind at 1. unfold users_data_getitem.
  unfold account in Hacc. rewrite Hacc.
  unfold bind at 1. unfold users_data_setitem, modify.
  unfold bind at 1. rewrite update_credits_eq.
  unfold account. cbn [users_data].
  rewrite DictFacts.get_set_same.
  unfold bind, _save_data, modify, ret, stored, set_credits, set_last_bonus_claim.
  cbn [users_data credits videos_created last_bonus_claim referred_by].
  now rewrite DictFacts.set_set.
Qed.

Lemma claim_bonus_refused (now_check now_claim : datetime) :
  fst (can_claim_bonus now_check user_id self) = Ok false ->
  claim_bonus now_check now_claim user_id self = (Ok false, self).
Proof.
  intros Hcan. unfold claim_bonus. unfold bind at 1.
  rewrite can_claim_bonus_eq in Hcan |- *. cbn [fst] in Hcan. now rewrite Hcan.
Qed.

Lemma claim_bonus_missing (now_check now_claim : datetime) :
  account self user_id = None ->
  claim_bonus now_check now_claim user_id self =
  (Raise (KeyError (str user_id)), self).
Proof.
  intros Hacc. unfold claim_bonus. unfold bind at 1.
  rewrite can_claim_bonus_eq, Hacc.
  unfold bind at 1. unfold users_data_getitem.
  unfold account in Hacc. now rewrite Hacc.
Qed.

Lemma claim_bonus_overflow (now_check now_claim : datetime) (e : exn) :
  fst (can_claim_bonus now_check user_id self) = Raise e ->
  claim_bonus now_check now_claim user_id self = (Raise e, self).
Proof.
  intros Hcan. unfold claim_bonus. unfold bind at 1.
  rewrite can_claim_bonus_eq in Hcan |- *. cbn [fst] in Hcan. now rewrite Hcan.
Qed.
End ClaimBonusEquations.

(** Reading the manager [stored] leaves behind. *)
Lemma account_stored_same self user_id u :
  account (stored self user_id u) user_id = Some u.
Proof. unfold account, stored. cbn [users_data]. apply DictFacts.get_set_same. Qed.

Lemma account_stored_other self user_id u other :
  other <> user_id ->
  account (stored self user_id u) other = account self other.
Proof.
  intros Hne. unfold account, stored. cbn [users_data].
  apply DictFacts.get_set_other. intros E. apply Hne. now apply str_inj.
Qed.

Lemma keys_stored self user_id u u0 :
  account self user_id = Some u0 ->
  Dict.keys (users_data (stored self user_id u)) = Dict.keys (users_data self).
Proof. unfold account, stored. cbn [users_data]. apply DictFacts.keys_set_present. Qed.


(** ** The daily bonus *)

(** C1.  For an existing account: when [can_claim_bonus] answers [True],
    [claim_bonus] returns [True] and leaves a manager in which the
    account's [last_bonus_claim] is the clock reading taken by the
    assignment and its credits are the old credits plus [DAILY_BONUS];
    both changes are in [users_data] and in the saved file at once, the
    account's other fields and every other account are as before.  When
    [can_claim_bonus] answers [False], [claim_bonus] returns [False] and
    the manager is unchanged. *)
Theorem claim_bonus_spec (self : UserDataManager) (user_id : Z) (u : user)
    (now_check now_claim : datetime)
    (Hacc : account self user_id = Some u) :
  (fst (can_claim_bonus now_check user_id self) = Ok true ->
   exists self',
     claim_bonus now_check now_claim user_id self = (Ok true, self') /\
     account self' user_id =
       Some (mkUser (credits u + DAILY_BONUS) (videos_created u)
                    (Some now_claim) (referred_by u)) /\
     (forall other, other <> user_id -> account self' other = account self other) /\
     Dict.keys (users_data self') = Dict.keys (users_data self) /\
     db_file self' = Some (users_data self'))
  /\
  (fst (can_claim_bonus now_check user_id self) = Ok false ->
   claim_bonus now_check now_claim user_id self = (Ok false, self)).
Proof.
  split; intros Hcan.
  - eexists. split; [exact (claim_bonus_granted _ _ _ now_claim _ Hacc Hcan)|].
    split; [apply account_stored_same|].
    split; [intros other Hne; now apply account_stored_other|].
    split; [eapply keys_stored; exact Hacc|reflexivity].
  - now apply claim_bonus_refused.
Qed.

Lemma claim_bonus_spec_witness :
  account only_user_7 7 = Some new_account /\
  fst (claim_bonus new_year_2024 new_year_2024 7 only_user_7) = Ok true.
Proof.
  split; [reflexivity|].
  destruct (claim_bonus_spec only_user_7 7 new_account
              new_year_2024 new_year_2024 eq_refl) as [Hyes _].
  destruct (Hyes eq_refl) as (self' & Hrun & _).
  now rewrite Hrun.
Defined.

(** C10.  For an id without an account [can_claim_bonus] answers [True],
    the same answer it gives for an account that has never claimed. *)
Theorem can_claim_bonus_unknown_account (self : UserDataManager) (user_id : Z)
    (now : datetime) (Hnone : account self user_id = None) :
  can_claim_bonus now user_id self = (Ok true, self) /\
  forall other u,
    account other user_id = Some u -> last_bonus_claim u = None ->
    can_claim_bonus now user_id other = (Ok true, other).
Proof.
  split.
  - now rewrite can_claim_bonus_eq, Hnone.
  - intros other u Hacc Hlast. now rewrite can_claim_bonus_eq, Hacc, Hlast.
Qed.

Lemma can_claim_bonus_unknown_account_witness :
  account no_accounts 7 = None /\
  can_claim_bonus new_year_2024 7 no_accounts = (Ok true, no_accounts).
Proof.
  split; [reflexivity|].
  exact (proj1 (can_claim_bonus_unknown_account no_accounts 7 new_year_2024 eq_refl)).
Defined.

(** C7.  For an existing account whose stored claim time leaves room for
    the 24 hour deadline, [can_claim_bonus] returns, and answers [True]
    exactly when there is no stored claim or the clock is at least 24 hours
    past it.  After a successful [claim_bonus] that stamped [now_claim],
    the answer at a clock reading [later] is whether [later] is at least
    24 hours past [now_claim]: [False] at [now_claim] itself. *)
Theorem can_claim_bonus_spec (self : UserDataManager) (user_id : Z) (u : user)
    (now : datetime)
    (Hacc : account self user_id = Some u)
    (Hrange : forall t, last_bonus_claim u = Some t -> deadline_representable t) :
  (exists b,
     can_claim_bonus now user_id self = (Ok b, self) /\
     (b = true <->
      last_bonus_claim u = None \/
      exists t, last_bonus_claim u = Some t /\ timedelta_hours 24 <= now - t))
  /\
  (forall now_check now_claim self1,
     deadline_representable now_claim ->
     claim_bonus now_check now_claim user_id self = (Ok true, self1) ->
     can_claim_bonus now_claim user_id self1 = (Ok false, self1) /\
     forall later,
       can_claim_bonus later user_id self1 =
       (Ok (timedelta_hours 24 <=? later - now_claim), self1)).
Proof.
  split.
  - rewrite can_claim_bonus_eq, Hacc.
    destruct (last_bonus_claim u) as [t|] eqn:Hlast.
    + destruct (Hrange t eq_refl) as [Hlo Hhi].
      unfold datetime_add.
      replace ((0 <=? t + timedelta_hours 24) && (t + timedelta_hours 24 <=? datetime_max))
        with true
        by (symmetry; apply andb_true_iff; split; apply Z.leb_le;
            unfold timedelta_hours in *; lia).
      eexists. split; [reflexivity|].
      rewrite Z.leb_le. split.
      * intros Hle. right. exists t. split; [reflexivity|lia].
      * intros [Hnone | (t' & Ht' & Hle)]; [discriminate|].
        injection Ht' as <-. lia.
    + exists true. split; [reflexivity|]. split; auto.
  - intros now_check now_claim self1 [Hlo Hhi] Hrun.
    assert (Hcan : fst (can_claim_bonus now_check user_id self) = Ok true).
    { destruct (fst (can_claim_bonus now_check user_id self)) as [[|]|e] eqn:Hc.
      - reflexivity.
      - rewrite (claim_bonus_refused _ _ _ _ Hc) in Hrun. discriminate.
      - rewrite (claim_bonus_overflow _ _ _ _ _ Hc) in Hrun. discriminate. }
    rewrite (claim_bonus_granted _ _ _ now_claim _ Hacc Hcan) in Hrun.
    injection Hrun as <-.
    assert (Hlater : forall later,
      can_claim_bonus later user_id
        (stored self user_id
           (mkUser (credits u + DAILY_BONUS) (videos_created u)
                   (Some now_claim) (referred_by u))) =
      (Ok (timedelta_hours 24 <=? later - now_claim),
       stored self user_id
         (mkUser (credits u + DAILY_BONUS) (videos_created u)
                 (Some now_claim) (referred_by u)))).
    { intros later. rewrite can_claim_bonus_eq, account_stored_same.
      cbn [last_bonus_claim]. unfold datetime_add.
      replace ((0 <=? now_claim + timedelta_hours 24)
               && (now_claim + timedelta_hours 24 <=? datetime_max))
        with true
        by (symmetry; apply andb_true_iff; split; apply Z.leb_le;
            unfold timedelta_hours in *; lia).
      do 2 f_equal.
      destruct (Z.leb_spec (now_claim + timedelta_hours 24) later);
        destruct (Z.leb_spec (timedelta_hours 24) (later - now_claim)); try reflexivity; lia. }
    split; [|exact Hlater].
    rewrite Hlater. do 2 f_equal. apply Z.leb_gt. unfold timedelta_hours. lia.
Qed.

Lemma can_claim_bonus_spec_witness :
  account claimed_on_new_year 7 = Some (mkUser 70 0 (Some new_year_2024) None) /\
  (forall t, last_bonus_claim (mkUser 70 0 (Some new_year_2024) None) = Some t ->
             deadline_representable t) /\
  can_claim_bonus (jan_2_midnight - 1) 7 claimed_on_new_year =
    (Ok false, claimed_on_new_year) /\
  can_claim_bonus jan_2_midnight 7 claimed_on_new_year =
    (Ok true, claimed_on_new_year) /\
  claim_bonus jan_2_six jan_2_six 7 claimed_on_new_year = (Ok true, claimed_again) /\
  can_claim_bonus jan_2_six 7 claimed_again = (Ok false, claimed_again) /\
  can_claim_bonus (jan_3_six - 1) 7 claimed_again = (Ok false, claimed_again) /\
  can_claim_bonus jan_3_six 7 claimed_again = (Ok true, claimed_again).
Proof.
  assert (Hrange : forall t,
            last_bonus_claim (mkUser 70 0 (Some new_year_2024) None) = Some t ->
            deadline_representable t).
  { intros t Ht. injection Ht as <-.
    unfold deadline_representable, timedelta_hours, datetime_max, new_year_2024.
    lia. }
  assert (Hagain : deadline_representable jan_2_six).
  { unfold deadline_representable, timedelta_hours, datetime_max, jan_2_six. lia. }
  destruct (can_claim_bonus_spec claimed_on_new_year 7
              (mkUser 70 0 (Some new_year_2024) None)
              (jan_2_midnight - 1) eq_refl Hrange)
    as [(b1 & Hrun1 & Hb1) _].
  destruct (can_claim_bonus_spec claimed_on_new_year 7
              (mkUser 70 0 (Some new_year_2024) None)
              jan_2_midnight eq_refl Hrange)
    as [(b2 & Hrun2 & Hb2) Hafter].
  destruct (Hafter jan_2_six jan_2_six claimed_again Hagain eq_refl)
    as [Hnow Hlater].
  split; [reflexivity|]. split; [exact Hrange|].
  split; [|split; [|split; [reflexivity|split; [exact Hnow|split]]]].
  - rewrite Hrun1. do 2 f_equal.
    destruct b1; [exfalso|reflexivity].
    destruct (proj1 Hb1 eq_refl) as [Hnone | (t & Ht & Hle)]; [discriminate|].
    injection Ht as <-.
    unfold timedelta_hours, jan_2_midnight, new_year_2024 in Hle. lia.
  - rewrite Hrun2. do 2 f_equal. apply Hb2. right.
    exists new_year_2024. split; [reflexivity|].
    unfold timedelta_hours, jan_2_midnight, new_year_2024. lia.
  - rewrite Hlater. reflexivity.
  - rewrite Hlater. reflexivity.
Defined.

(** ** Accounts and credits *)

(** C2.  [add_user] on an id without an account returns [True] and appends
    the account [new_account] (50 credits, no videos, no claim, no
    referrer), leaving every other account as it was; on an id that has an
    account it returns [False] and changes nothing.  So a second call right
    after a first returns [False] and leaves the manager of the first call
    untouched. *)
Theorem add_user_spec (self : UserDataManager) (user_id : Z) :
  (account self user_id = None ->
   exists self',
     add_user user_id self = (Ok true, self') /\
     account self' user_id = Some new_account /\
     (forall other, other <> user_id -> account self' other = account self other) /\
     Dict.keys (users_data self') = (Dict.keys (users_data self) ++ [str user_id])%list /\
     db_file self' = Some (users_data self'))
  /\
  (forall u, account self user_id = Some u ->
             add_user user_id self = (Ok false, self))
  /\
  (forall created self1,
     add_user user_id self = (Ok created, self1) ->
     add_user user_id self1 = (Ok false, self1)).
Proof.
  split; [|split].
  - intros Hnone. rewrite add_user_eq, Hnone. eexists. split; [reflexivity|].
    split; [apply account_stored_same|].
    split; [intros other Hne; now apply account_stored_other|].
    split; [|reflexivity].
    unfold stored. cbn [users_data]. now apply DictFacts.keys_set_absent.
  - intros u Hacc. now rewrite add_user_eq, Hacc.
  - intros created self1. rewrite add_user_eq.
    destruct (account self user_id) as [u|] eqn:Hacc; intros Hrun;
      injection Hrun as <- <-; rewrite add_user_eq.
    + now rewrite Hacc.
    + now rewrite account_stored_same.
Qed.

(** C6.  [update_credits] on an existing account stores the old balance
    plus [amount], whatever the sign of [amount] or of the sum, and returns
    that sum; the account's other fields and the other accounts are as
    before.  On an id without an account it returns [None] and changes
    nothing.  The balance can go below zero: 3 credits and an amount of -5
    give -2. *)
Theorem update_credits_spec (self : UserDataManager) (user_id amount : Z) :
  match account self user_id with
  | Some u =>
      exists self',
        update_credits user_id amount self = (Ok (Some (credits u + amount)), self') /\
        account self' user_id =
          Some (mkUser (credits u + amount) (videos_created u)
                       (last_bonus_claim u) (referred_by u)) /\
        (forall other, other <> user_id -> account self' other = account self other) /\
        db_file self' = Some (users_data self')
  | None => update_credits user_id amount self = (Ok None, self)
  end
  /\
  fst (update_credits 7 (-5) (stored no_accounts 7 (mkUser 3 0 None None))) =
    Ok (Some (-2)).
Proof.
  split; [|reflexivity].
  rewrite update_credits_eq.
  destruct (account self user_id) as [u|] eqn:Hacc; [|reflexivity].
  eexists. split; [reflexivity|].
  split; [apply account_stored_same|].
  split; [intros other Hne; now apply account_stored_other|reflexivity].
Qed.

(** The remaining operations return normally on every input and do
    nothing for an id without an account. *)
Lemma ledger_unknown_account_is_noop (self : UserDataManager) (user_id : Z) :
  account self user_id = None ->
  get_user user_id self = (Ok None, self) /\
  (forall amount, update_credits user_id amount self = (Ok None, self)) /\
  record_video_generation user_id self = (Ok tt, self) /\
  (forall r, set_referrer user_id r self = (Ok false, self)) /\
  (forall now, can_claim_bonus now user_id self = (Ok true, self)).
Proof.
  intros Hnone. repeat split; intros.
  - now rewrite get_user_eq, Hnone.
  - now rewrite update_credits_eq, Hnone.
  - now rewrite record_video_generation_eq, Hnone.
  - now rewrite set_referrer_eq, Hnone.
  - now rewrite can_claim_bonus_eq, Hnone.
Qed.

Lemma ledger_calls_return (self : UserDataManager) (user_id : Z) :
  (exists b, fst (add_user user_id self) = Ok b) /\
  (exists u, fst (get_user user_id self) = Ok u) /\
  (forall amount, exists b, fst (update_credits user_id amount self) = Ok b) /\
  fst (record_video_generation user_id self) = Ok tt /\
  (forall r, exists b, fst (set_referrer user_id r self) = Ok b).
Proof.
  repeat split; intros.
  - rewrite add_user_eq. destruct (account self user_id); eexists; reflexivity.
  - eexists; reflexivity.
  - rewrite update_credits_eq. destruct (account self user_id); eexists; reflexivity.
  - rewrite record_video_generation_eq. destruct (account self user_id); reflexivity.
  - rewrite set_referrer_eq.
    destruct (account self user_id) as [u|]; [destruct (referred_by u)|];
      eexists; reflexivity.
Qed.

(** C4.  [claim_bonus] on an id without an account does not return:
    [can_claim_bonus] answers [True] for it, and the subscript
    [self.users_data[user_id_str]] of line 100 then raises [KeyError].
    The manager is left unchanged. *)
Theorem claim_bonus_unknown_account_raises (self : UserDataManager)
    (user_id : Z) (now_check now_claim : datetime)
    (Hnone : account self user_id = None) :
  claim_bonus now_check now_claim user_id self =
  (Raise (KeyError (str user_id)), self).
Proof. now apply claim_bonus_missing. Qed.

Lemma claim_bonus_unknown_account_raises_witness :
  account no_accounts 1 = None /\
  claim_bonus new_year_2024 new_year_2024 1 no_accounts =
  (Raise (KeyError "1"), no_accounts).
Proof.
  split; [reflexivity|].
  exact (claim_bonus_unknown_account_raises no_accounts 1
           new_year_2024 new_year_2024 eq_refl).
Defined.

(** ** Referrals *)

Lemma stored_keeps_referrer self user_id u k r :
  referred self k r ->
  (k = str user_id -> referred_by u = Some r) ->
  referred (stored self user_id u) k r.
Proof.
  intros (u0 & Hget & Href) Hsame. unfold referred, stored. cbn [users_data].
  destruct (String.eqb_spec k (str user_id)) as [-> | Hne].
  - exists u. split; [apply DictFacts.get_set_same|auto].
  - exists u0. split; [now rewrite DictFacts.get_set_other|exact Href].
Qed.

Lemma claim_bonus_state self user_id now_check now_claim :
  snd (claim_bonus now_check now_claim user_id self) = self \/
  exists u,
    account self user_id = Some u /\
    snd (claim_bonus now_check now_claim user_id self) =
    stored self user_id
      (mkUser (credits u + DAILY_BONUS) (videos_created u)
              (Some now_claim) (referred_by u)).
Proof.
  destruct (account self user_id) as [u|] eqn:Hacc.
  - destruct (fst (can_claim_bonus now_check user_id self)) as [[|]|e] eqn:Hcan.
    + right. exists u. split; [reflexivity|].
      now rewrite (claim_bonus_granted _ _ _ now_claim _ Hacc Hcan).
    + left. now rewrite claim_bonus_refused.
    + left. now rewrite (claim_bonus_overflow _ _ _ _ _ Hcan).
  - left. now rewrite claim_bonus_missing.
Qed.

(** No ledger call changes a referrer once it is stored. *)
Lemma after_call_keeps_referrer c self k r :
  referred self k r -> referred (after_call c self) k r.
Proof.
  intros Href.
  assert (Hown : forall i, k = str i ->
            exists u0, account self i = Some u0 /\ referred_by u0 = Some r).
  { intros i ->. exact Href. }
  destruct c as [i | i a | i | t1 t2 i | i r2]; cbn [after_call].
  - rewrite add_user_eq.
    destruct (account self i) as [u0|] eqn:Hacc; cbn [snd]; [exact Href|].
    apply stored_keeps_referrer; [exact Href|].
    intros E. destruct (Hown i E) as (u0 & Hu0 & _). congruence.
  - rewrite update_credits_eq.
    destruct (account self i) as [u0|] eqn:Hacc; cbn [snd]; [|exact Href].
    apply stored_keeps_referrer; [exact Href|].
    intros E. destruct (Hown i E) as (u1 & Hu1 & Hr). cbn. congruence.
  - rewrite record_video_generation_eq.
    destruct (account self i) as [u0|] eqn:Hacc; cbn [snd]; [|exact Href].
    apply stored_keeps_referrer; [exact Href|].
    intros E. destruct (Hown i E) as (u1 & Hu1 & Hr). cbn. congruence.
  - destruct (claim_bonus_state self i t1 t2) as [-> | (u0 & Hacc & ->)];
      [exact Href|].
    apply stored_keeps_referrer; [exact Href|].
    intros E. destruct (Hown i E) as (u1 & Hu1 & Hr). cbn. congruence.
  - rewrite set_referrer_eq.
    destruct (account self i) as [u0|] eqn:Hacc; cbn [snd]; [|exact Href].
    destruct (referred_by u0) eqn:Hr0; cbn [snd]; [exact Href|].
    apply stored_keeps_referrer; [exact Href|].
    intros E. destruct (Hown i E) as (u1 & Hu1 & Hr). congruence.
Qed.

Lemma after_calls_keep_referrer cs self k r :
  referred self k r -> referred (after_calls cs self) k r.
Proof.
  revert self. unfold after_calls.
  induction cs as [|c cs IH]; intros self Href; cbn [fold_left]; [exact Href|].
  apply IH. now apply after_call_keeps_referrer.
Qed.

(** C5.  Once [set_referrer user_id r] has returned [True], then after any
    further ledger calls, on any ids and in any number, every
    [set_referrer user_id r2] returns [False] and changes nothing, and the
    account's [referred_by] is still [r]. *)
Theorem referred_by_write_once (self self1 : UserDataManager) (user_id r : Z)
    (Hset : set_referrer user_id r self = (Ok true, self1)) :
  forall (calls : list ledger_call) (r2 : Z),
    set_referrer user_id r2 (after_calls calls self1) =
      (Ok false, after_calls calls self1) /\
    exists u,
      account (after_calls calls self1) user_id = Some u /\
      referred_by u = Some r.
Proof.
  intros calls r2.
  assert (Href : referred self1 (str user_id) r).
  { rewrite set_referrer_eq in Hset.
    destruct (account self user_id) as [u|]; [|discriminate].
    destruct (referred_by u); [discriminate|].
    injection Hset as <-. exists (set_referred_by u (Some r)).
    split; [apply account_stored_same|reflexivity]. }
  destruct (after_calls_keep_referrer calls _ _ _ Href) as (u & Hacc & Hr).
  split; [|now exists u].
  rewrite set_referrer_eq. unfold account. now rewrite Hacc, Hr.
Qed.

Lemma referred_by_write_once_witness :
  set_referrer 7 3 only_user_7 =
    (Ok true, stored only_user_7 7 (mkUser 50 0 None (Some 3))) /\
  fst (set_referrer 7 4
         (after_calls [UpdateCredits 7 (-10); AddUser 3]
            (stored only_user_7 7 (mkUser 50 0 None (Some 3))))) = Ok false.
Proof.
  split; [reflexivity|].
  destruct (referred_by_write_once only_user_7
              (stored only_user_7 7 (mkUser 50 0 None (Some 3))) 7 3 eq_refl
              [UpdateCredits 7 (-10); AddUser 3] 4) as [Hrun _].
  now rewrite Hrun.
Defined.

(** The referral step of [start_command] is not reached with the user's
    own id. *)
Lemma start_command_own_id env user_id b :
  db_manager (snd (start_command env user_id (Some user_id) b)) =
  if is_user_member_of_channel env
  then snd (add_user user_id (db_manager b))
  else db_manager b.
Proof.
  unfold start_command.
  destruct (is_user_member_of_channel env).
  - rewrite Z.eqb_refl, andb_false_r.
    unfold bind at 1. unfold db at 1. unfold zoom.
    rewrite add_user_eq.
    destruct (account (db_manager b) user_id); cbn [snd];
      destruct (welcome_reply env), (show_main_menu env); reflexivity.
  - destruct (access_denied_reply env); reflexivity.
Qed.

(** C3, as the code has it.  [set_referrer] returns [True] and stores
    [referrer_id] exactly when the account exists and has no referrer yet,
    whatever [referrer_id] is; otherwise it returns [False] and changes
    nothing.  The comparison with the user's own id is made by the caller:
    [start_command] invoked with the user's own id as referrer leaves the
    ledger as [add_user] alone leaves it. *)
Theorem set_referrer_spec (self : UserDataManager) (user_id referrer_id : Z) :
  set_referrer user_id referrer_id self =
    match account self user_id with
    | Some u =>
        match referred_by u with
        | None => (Ok true,
                   stored self user_id
                     (mkUser (credits u) (videos_created u) (last_bonus_claim u)
                             (Some referrer_id)))
        | Some _ => (Ok false, self)
        end
    | None => (Ok false, self)
    end
  /\
  forall env b,
    db_manager (snd (start_command env user_id (Some user_id) b)) =
    if is_user_member_of_channel env
    then snd (add_user user_id (db_manager b))
    else db_manager b.
Proof.
  split; [apply set_referrer_eq|].
  intros env b. apply start_command_own_id.
Qed.

(** C3, as stated, fails: on the fresh account of user 7,
    [set_referrer 7 7] returns [True] and stores 7 as the referrer. *)
Lemma set_referrer_accepts_own_id :
  set_referrer 7 7 only_user_7 =
  (Ok true, stored only_user_7 7 (mkUser 50 0 None (Some 7))) /\
  account (snd (set_referrer 7 7 only_user_7)) 7 = Some (mkUser 50 0 None (Some 7)).
Proof. split; reflexivity. Qed.

(** ** The generation flow *)

Ltac run_handler :=
  cbv beta iota zeta delta
    [bind ret raise gets modify lift_result try_except try_finally zoom
     db await log http_get json_get];
  cbn [fst snd db_manager outbox].

Lemma stored_stored self user_id u u' :
  stored (stored self user_id u) user_id u' = stored self user_id u'.
Proof. unfold stored. cbn [users_data]. now rewrite DictFacts.set_set. Qed.

(** The two ledger calls of lines 223-224, in a row. *)
Lemma debit_and_record self user_id :
  snd (record_video_generation user_id
         (snd (update_credits user_id (- VIDEO_COST) self))) =
  match account self user_id with
  | Some u => stored self user_id (charged u)
  | None => self
  end.
Proof.
  rewrite update_credits_eq.
  destruct (account self user_id) as [u|] eqn:Hacc; cbn [snd];
    rewrite record_video_generation_eq.
  - rewrite account_stored_same. cbn [snd]. now rewrite stored_stored.
  - now rewrite Hacc.
Qed.

(** The pre-check of [generate_video_command] reads the ledger only, and
    lets the user on to the prompt exactly when the balance covers
    [VIDEO_COST]. *)
Lemma generate_video_command_gate reply user_id b :
  snd (generate_video_command reply user_id b) = b /\
  forall u, account (db_manager b) user_id = Some u -> reply = None ->
    fst (generate_video_command reply user_id b) =
    Ok (if credits u <? VIDEO_COST then ConversationHandler_END else PROMPT_INPUT).
Proof.
  unfold generate_video_command. run_handler. rewrite get_user_eq.
  destruct b as [m o]. cbn [fst snd db_manager outbox].
  destruct (account m user_id) as [u|]; cbn.
  - split.
    + destruct (credits u <? VIDEO_COST), reply; reflexivity.
    + intros u' Hu ->. injection Hu as <-.
      destruct (credits u <? VIDEO_COST); reflexivity.
  - split; [reflexivity|discriminate].
Qed.

Lemma process_prompt_success env user_id b :
  processing_msg env = None ->
  reports_success (api_response env) = true ->
  snd (process_prompt env user_id b) =
  mkBot (snd (record_video_generation user_id
                (snd (update_credits user_id (- VIDEO_COST) (db_manager b)))))
        (outbox b).
Proof.
  intros Hmsg Hok. unfold process_prompt, reports_success in *.
  rewrite Hmsg.
  destruct (api_response env) as [| | | |data]; try discriminate.
  destruct data as [| | | | | |fields]; try discriminate.
  run_handler.
  destruct (Dict.get fields "success") as [v|]; [|discriminate].
  rewrite Hok.
  destruct (update_credits user_id (- VIDEO_COST) (db_manager b)) as [[r|e] m1] eqn:Hupd.
  - cbn [fst snd db_manager outbox].
    destruct (record_video_generation user_id m1) as [[[]|e] m2] eqn:Hrec.
    + cbn [fst snd db_manager outbox].
      destruct (send_video env) as [[]|], (timeout_notice env),
        (error_notice env), (delete_processing_msg env); reflexivity.
    + rewrite record_video_generation_eq in Hrec.
      destruct (account m1 user_id); discriminate.
  - rewrite update_credits_eq in Hupd.
    destruct (account (db_manager b) user_id); discriminate.
Qed.

Lemma process_prompt_failure env user_id b :
  reports_success (api_response env) = false ->
  snd (process_prompt env user_id b) = b.
Proof.
  intros Hno. unfold process_prompt, reports_success in *.
  destruct b as [m o].
  destruct (processing_msg env); [reflexivity|].
  destruct (api_response env) as [| | | |data]; run_handler.
  1-4: destruct (timeout_notice env), (error_notice env),
         (delete_processing_msg env); reflexivity.
  destruct data as [| | | | | |fields];
    try (destruct (error_notice env), (delete_processing_msg env); reflexivity).
  destruct (Dict.get fields "success") as [v|].
  - rewrite Hno.
    destruct (unsuccessful_notice env) as [[]|], (timeout_notice env),
      (error_notice env), (delete_processing_msg env); reflexivity.
  - cbn [truthy].
    destruct (unsuccessful_notice env) as [[]|], (timeout_notice env),
      (error_notice env), (delete_processing_msg env); reflexivity.
Qed.



(** A well-formed success response for user 7, who has just joined. *)
Example process_prompt_video_ready :
  account (db_manager (snd (process_prompt (all_delivered video_ready) 7
                              (mkBot only_user_7 [])))) 7 =
  Some (mkUser 40 1 None None).
Proof. reflexivity. Qed.

(** The decision to debit reads the ["success"] entry alone: an object
    that reports success without a ["url"] is charged as well. *)
Remark process_prompt_does_not_read_url :
  account (db_manager (snd (process_prompt
                              (all_delivered (JObject [("success", JBool true)])) 7
                              (mkBot only_user_7 [])))) 7 =
  Some (mkUser 40 1 None None).
Proof. reflexivity. Qed.

(** ** The broadcast *)

Lemma delivered_undelivered copy ids :
  delivered copy ids + undelivered copy ids = Z.of_nat (List.length ids).
Proof.
  induction ids as [|i ids IH]; [reflexivity|].
  cbn [delivered undelivered List.length]. destruct (copy i); lia.
Qed.

(** The loop over recipients none of whose deliveries raises anything but
    [Forbidden] or [BadRequest]. *)
Lemma broadcast_loop_blocked copy ids :
  failures_blocked copy ids ->
  forall sent failed b,
    broadcast_loop copy ids sent failed b =
    (Ok (sent + delivered copy ids, failed + undelivered copy ids),
     mkBot (db_manager b) (outbox b ++ map CopyAttempt ids)%list).
Proof.
  induction ids as [|i ids IH]; intros Hblocked sent failed b.
  - cbn. rewrite app_nil_r, !Z.add_0_r. now destruct b.
  - cbn [broadcast_loop delivered undelivered map].
    assert (Hrest : failures_blocked copy ids).
    { intros j e Hin. apply Hblocked. now right. }
    destruct (copy i) as [e|] eqn:Hcopy.
    + assert (Hb : blocked_the_bot e = true)
        by (apply (Hblocked i e); [now left|exact Hcopy]).
      cbv beta iota zeta delta [bind try_except log modify await raise ret].
      rewrite Hb. cbn [fst snd].
      rewrite IH by exact Hrest. cbn [db_manager outbox].
      rewrite <- app_assoc. cbn [app].
      do 3 f_equal; lia.
    + cbv beta iota zeta delta [bind try_except log modify await raise ret].
      cbn [fst snd].
      rewrite IH by exact Hrest. cbn [db_manager outbox].
      rewrite <- app_assoc. cbn [app].
      do 3 f_equal; lia.
Qed.

(** C9, as the code has it.  When every delivery either returns or raises
    [Forbidden] or [BadRequest], the loop returns normally, has tried every
    key of [users_data] once and in order, and counts the deliveries that
    returned in [sent] and the others in [failed]; the report that follows
    carries these two counts. *)
Theorem broadcast_counts (env : broadcast_env) (b : Bot)
    (Hblocked : failures_blocked (copy_message env)
                  (Dict.keys (users_data (db_manager b)))) :
  let ids := Dict.keys (users_data (db_manager b)) in
  let sent := delivered (copy_message env) ids in
  let failed := undelivered (copy_message env) ids in
  broadcast_loop (copy_message env) ids 0 0 b =
    (Ok (sent, failed), mkBot (db_manager b) (outbox b ++ map CopyAttempt ids)%list)
  /\ sent + failed = Z.of_nat (List.length ids)
  /\ (answer_query env = None -> edit_message env = None ->
      send_report env = None ->
      outbox (snd (admin_broadcast_send env b)) =
      (outbox b ++ map CopyAttempt ids ++ [BroadcastReport sent failed])%list /\
      db_manager (snd (admin_broadcast_send env b)) = db_manager b).
Proof.
  intros ids sent failed.
  pose proof (broadcast_loop_blocked _ _ Hblocked 0 0 b) as Hloop.
  rewrite !Z.add_0_l in Hloop. fold ids sent failed in Hloop.
  split; [exact Hloop|]. split; [apply delivered_undelivered|].
  intros Ha He Hr. unfold admin_broadcast_send. rewrite Ha, He, Hr.
  run_handler. unfold get_all_user_ids, gets. cbn [fst snd].
  assert (Hb : {| db_manager := db_manager b; outbox := outbox b |} = b)
    by now destruct b.
  rewrite Hb. fold ids. rewrite Hloop. cbn [fst snd db_manager outbox].
  destruct (broadcast_menu env); cbn [fst snd db_manager outbox];
    now rewrite <- app_assoc.
Qed.

Lemma broadcast_counts_witness :
  failures_blocked (second_fails_with Forbidden) ["1"; "2"; "3"]%string /\
  broadcast_loop (second_fails_with Forbidden) ["1"; "2"; "3"]%string 0 0 three_users =
    (Ok (2, 1),
     mkBot (db_manager three_users)
           [CopyAttempt "1"; CopyAttempt "2"; CopyAttempt "3"]).
Proof.
  assert (Hblocked : failures_blocked (second_fails_with Forbidden)
                       ["1"; "2"; "3"]%string).
  { intros i e _. unfold second_fails_with.
    destruct (String.eqb i "2"); [|discriminate].
    intros E. injection E as <-. reflexivity. }
  split; [exact Hblocked|].
  exact (proj1 (broadcast_counts (broadcast_where_second_fails_with Forbidden)
                  three_users Hblocked)).
Defined.

(** C9, as stated, fails: with three accounts whose second delivery times
    out, [TimedOut] escapes the loop, the third account is never tried and
    no report is sent. *)
Lemma broadcast_loop_lets_timeout_escape :
  broadcast_loop (second_fails_with TimedOut)
    (Dict.keys (users_data (db_manager three_users))) 0 0 three_users =
    (Raise TimedOut,
     mkBot (db_manager three_users) [CopyAttempt "1"; CopyAttempt "2"]) /\
  admin_broadcast_send (broadcast_where_second_fails_with TimedOut) three_users =
    (Raise TimedOut,
     mkBot (db_manager three_users) [CopyAttempt "1"; CopyAttempt "2"]).
Proof. split; reflexivity. Qed.

(** ** What every ledger call preserves *)

Open Scope list_scope.

Lemma evolves_refl u : evolves u u.
Proof. split; [lia|auto]. Qed.

(** Each call is a step on the account it names. *)
Lemma after_call_step c self : ledger_step (target c) self (after_call c self).
Proof.
  destruct c as [i | i a | i | t1 t2 i | i r2]; cbn [after_call target].
  - rewrite add_user_eq.
    destruct (account self i) eqn:Hacc; cbn [snd];
      [apply step_unchanged|now apply step_created].
  - rewrite update_credits_eq.
    destruct (account self i) as [u0|] eqn:Hacc; cbn [snd];
      [|apply step_unchanged].
    apply step_updated with (u0 := u0); [exact Hacc|]. split; cbn; [lia|auto].
  - rewrite record_video_generation_eq.
    destruct (account self i) as [u0|] eqn:Hacc; cbn [snd];
      [|apply step_unchanged].
    apply step_updated with (u0 := u0); [exact Hacc|]. split; cbn; [lia|auto].
  - destruct (claim_bonus_state self i t1 t2) as [-> | (u0 & Hacc & ->)];
      [apply step_unchanged|].
    apply step_updated with (u0 := u0); [exact Hacc|]. split; cbn; [lia|auto].
  - rewrite set_referrer_eq.
    destruct (account self i) as [u0|] eqn:Hacc; cbn [snd];
      [|apply step_unchanged].
    destruct (referred_by u0) eqn:Hr; cbn [snd]; [apply step_unchanged|].
    apply step_updated with (u0 := u0); [exact Hacc|].
    split; cbn; [lia|]. intros r Hsome. congruence.
Qed.

Lemma get_none_not_in {V : Type} (d : Dict.t V) k :
  Dict.get d k = None -> ~ In k (Dict.keys d).
Proof.
  unfold Dict.keys.
  induction d as [|[k0 v0] d IH]; cbn [Dict.get map fst In]; [tauto|].
  destruct (String.eqb_spec k k0) as [-> | Hne]; [discriminate|].
  intros Hget [E | Hin]; [now apply Hne|now apply IH].
Qed.

Section StepInvariants.
Variables (i : Z) (self self' : UserDataManager).
Hypothesis Hstep : ledger_step i self self'.

Lemma step_frame j : j <> i -> account self' j = account self j.
Proof.
  intros Hne. destruct Hstep; [reflexivity| |]; now apply account_stored_other.
Qed.

Lemma step_in_sync : in_sync self -> in_sync self'.
Proof. destruct Hstep; auto; reflexivity. Qed.

Lemma step_keys :
  exists added, Dict.keys (users_data self') = Dict.keys (users_data self) ++ added.
Proof.
  destruct Hstep as [| Hnone | u0 u Hacc _].
  - exists []. now rewrite app_nil_r.
  - exists [str i]. unfold stored. cbn [users_data].
    now apply DictFacts.keys_set_absent.
  - exists []. rewrite app_nil_r. now apply keys_stored with (u0 := u0).
Qed.

Lemma step_nodup :
  NoDup (Dict.keys (users_data self)) -> NoDup (Dict.keys (users_data self')).
Proof.
  intros Hnd. destruct Hstep as [| Hnone | u0 u Hacc _].
  - exact Hnd.
  - unfold stored. cbn [users_data].
    rewrite DictFacts.keys_set_absent by exact Hnone.
    apply NoDup_app; [exact Hnd|repeat constructor; intros []|].
    intros k Hin [<- | []]. now apply (get_none_not_in _ _ Hnone).
  - now rewrite (keys_stored _ _ _ _ Hacc).
Qed.

Lemma step_account_evolves j v0 :
  account self j = Some v0 ->
  exists v, account self' j = Some v /\ evolves v0 v.
Proof.
  intros Hj. destruct Hstep as [| Hnone | u0 u Hacc Hev].
  - exists v0. split; [exact Hj|apply evolves_refl].
  - destruct (Z.eq_dec j i) as [-> | Hne]; [congruence|].
    exists v0. split; [now rewrite account_stored_other|apply evolves_refl].
  - destruct (Z.eq_dec j i) as [-> | Hne].
    + exists u. split; [apply account_stored_same|]. congruence.
    + exists v0. split; [now rewrite account_stored_other|apply evolves_refl].
Qed.
End StepInvariants.

Lemma evolves_trans u0 u1 u2 : evolves u0 u1 -> evolves u1 u2 -> evolves u0 u2.
Proof. intros [H1 R1] [H2 R2]. split; [lia|auto]. Qed.

Lemma after_calls_cons c cs self :
  after_calls (c :: cs) self = after_calls cs (after_call c self).
Proof. reflexivity. Qed.

(** X1.  [record_video_generation] on an existing account adds one to
    [videos_created] and leaves the credits, the claim time, the referrer,
    the order of the keys and every other account as they were, and saves;
    on an id without an account it returns without any change. *)
Theorem record_video_generation_spec (self : UserDataManager) (user_id : Z) :
  match account self user_id with
  | Some u =>
      exists self',
        record_video_generation user_id self = (Ok tt, self') /\
        account self' user_id =
          Some (mkUser (credits u) (videos_created u + 1)
                       (last_bonus_claim u) (referred_by u)) /\
        (forall other, other <> user_id -> account self' other = account self other) /\
        Dict.keys (users_data self') = Dict.keys (users_data self) /\
        db_file self' = Some (users_data self')
  | None => record_video_generation user_id self = (Ok tt, self)
  end.
Proof.
  rewrite record_video_generation_eq.
  destruct (account self user_id) as [u|] eqn:Hacc; [|reflexivity].
  eexists. split; [reflexivity|].
  split; [apply account_stored_same|].
  split; [intros other Hne; now apply account_stored_other|].
  split; [eapply keys_stored; exact Hacc|reflexivity].
Qed.

(** X2.  A ledger call touches no account but the one it names: after any
    sequence of calls none of which names [j], the account of [j] (or its
    absence) is what it was. *)
Theorem calls_on_other_ids_leave_account (calls : list ledger_call)
    (self : UserDataManager) (j : Z)
    (Hother : Forall (fun c => target c <> j) calls) :
  account (after_calls calls self) j = account self j.
Proof.
  revert self. induction Hother as [|c cs Hc _ IH]; intros self; [reflexivity|].
  rewrite after_calls_cons, IH.
  apply (step_frame _ _ _ (after_call_step c self)). congruence.
Qed.

Lemma calls_on_other_ids_leave_account_witness :
  Forall (fun c => target c <> 7)
    [AddUser 3; UpdateCredits 3 (-60); SetReferrer 3 7;
     ClaimBonus new_year_2024 new_year_2024 3] /\
  account (after_calls
             [AddUser 3; UpdateCredits 3 (-60); SetReferrer 3 7;
              ClaimBonus new_year_2024 new_year_2024 3] only_user_7) 7 =
  Some new_account.
Proof.
  assert (H : Forall (fun c => target c <> 7)
                [AddUser 3; UpdateCredits 3 (-60); SetReferrer 3 7;
                 ClaimBonus new_year_2024 new_year_2024 3])
    by (repeat constructor; discriminate).
  split; [exact H|].
  exact (calls_on_other_ids_leave_account _ only_user_7 7 H).
Defined.

Lemma after_calls_in_sync calls self :
  in_sync self -> in_sync (after_calls calls self).
Proof.
  revert self. induction calls as [|c cs IH]; intros self Hs; [exact Hs|].
  rewrite after_calls_cons. apply IH.
  exact (step_in_sync _ _ _ (after_call_step c self) Hs).
Qed.

(** X3.  Whatever [users_data.json] held at start-up and whatever calls
    were made since, the file holds the manager's accounts: a manager
    constructed from the file as it is now equals the running one. *)
Theorem restart_restores_ledger (disk : option (Dict.t user))
    (calls : list ledger_call) :
  __init__ (db_file (after_calls calls (__init__ disk))) =
  after_calls calls (__init__ disk).
Proof.
  assert (Hs : in_sync (after_calls calls (__init__ disk)))
    by (apply after_calls_in_sync; reflexivity).
  unfold in_sync in Hs. unfold __init__ at 1. rewrite Hs.
  now destruct (after_calls calls (__init__ disk)).
Qed.

(** X4.  No call removes or reorders an account: after any sequence of
    calls the keys of [users_data] are the old keys, in the old order,
    followed by the keys created since, and an account that existed still
    exists with a [videos_created] no smaller than before. *)
Theorem accounts_are_never_removed (calls : list ledger_call)
    (self : UserDataManager) :
  (exists added,
     Dict.keys (users_data (after_calls calls self)) =
     Dict.keys (users_data self) ++ added) /\
  (forall j v0,
     account self j = Some v0 ->
     exists v, account (after_calls calls self) j = Some v /\
               videos_created v0 <= videos_created v).
Proof.
  split.
  - revert self. induction calls as [|c cs IH]; intros self.
    + exists []. now rewrite app_nil_r.
    + rewrite after_calls_cons.
      destruct (IH (after_call c self)) as (added2 & ->).
      destruct (step_keys _ _ _ (after_call_step c self)) as (added1 & ->).
      exists (added1 ++ added2). now rewrite app_assoc.
  - intros j v0 Hj.
    assert (H : exists v, account (after_calls calls self) j = Some v /\ evolves v0 v).
    { revert self v0 Hj. induction calls as [|c cs IH]; intros self v0 Hj.
      - exists v0. split; [exact Hj|apply evolves_refl].
      - rewrite after_calls_cons.
        destruct (step_account_evolves _ _ _ (after_call_step c self) j v0 Hj)
          as (v1 & Hv1 & He1).
        destruct (IH _ _ Hv1) as (v & Hv & He).
        exists v. split; [exact Hv|now apply evolves_trans with v1]. }
    destruct H as (v & Hv & [Hle _]). now exists v.
Qed.

(** X5.  The ids [get_all_user_ids] lists stay pairwise distinct: if they
    are distinct before a sequence of calls, they are distinct after it. *)
Theorem user_ids_stay_distinct (calls : list ledger_call) (self : UserDataManager)
    (Hdistinct : NoDup (Dict.keys (users_data self))) :
  exists ids,
    get_all_user_ids (after_calls calls self) = (Ok ids, after_calls calls self) /\
    NoDup ids.
Proof.
  eexists. split; [reflexivity|].
  revert self Hdistinct. induction calls as [|c cs IH]; intros self Hnd.
  - exact Hnd.
  - rewrite after_calls_cons. apply IH.
    exact (step_nodup _ _ _ (after_call_step c self) Hnd).
Qed.

Lemma user_ids_stay_distinct_witness :
  NoDup (Dict.keys (users_data no_accounts)) /\
  fst (get_all_user_ids
         (after_calls [AddUser 2; AddUser 1; AddUser 2; UpdateCredits 1 5]
            no_accounts)) = Ok ["2"; "1"]%string.
Proof.
  assert (H : NoDup (Dict.keys (users_data no_accounts))) by constructor.
  split; [exact H|].
  destruct (user_ids_stay_distinct
              [AddUser 2; AddUser 1; AddUser 2; UpdateCredits 1 5] no_accounts H)
    as (ids & Hrun & _).
  reflexivity.
Defined.

(** ** How the operations compose *)

(** X6.  Two credit adjustments of one account in a row amount to one
    adjustment by the sum: the same manager is left behind and the same
    balance is returned (nothing, for an id without an account). *)
Theorem update_credits_adds_up (self : UserDataManager) (user_id a b : Z) :
  update_credits user_id b (snd (update_credits user_id a self)) =
  update_credits user_id (a + b) self.
Proof.
  rewrite (update_credits_eq self).
  destruct (account self user_id) as [u|] eqn:Hacc; cbn [snd];
    rewrite !update_credits_eq.
  - rewrite account_stored_same, Hacc, stored_stored. cbn [credits set_credits].
    now rewrite Z.add_assoc.
  - now rewrite Hacc.
Qed.

(** X7.  The credit balance and the video counter do not interfere:
    adjusting the credits and recording a generation leave the same
    manager behind in either order. *)
Theorem update_credits_record_video_commute (self : UserDataManager)
    (user_id amount : Z) :
  snd (record_video_generation user_id (snd (update_credits user_id amount self))) =
  snd (update_credits user_id amount (snd (record_video_generation user_id self))).
Proof.
  rewrite (update_credits_eq self), (record_video_generation_eq self).
  destruct (account self user_id) as [u|] eqn:Hacc; cbn [snd].
  - rewrite record_video_generation_eq, update_credits_eq.
    rewrite !account_stored_same. cbn [snd]. now rewrite !stored_stored.
  - now rewrite record_video_generation_eq, update_credits_eq, Hacc.
Qed.

(** The eligibility check on an account whose last claim is stamped [t]. *)
Lemma can_claim_bonus_after_stamp self user_id c v r t later :
  deadline_representable t ->
  can_claim_bonus later user_id (stored self user_id (mkUser c v (Some t) r)) =
  (Ok (t + timedelta_hours 24 <=? later),
   stored self user_id (mkUser c v (Some t) r)).
Proof.
  intros [Hlo Hhi]. rewrite can_claim_bonus_eq, account_stored_same.
  cbn [last_bonus_claim]. unfold datetime_add.
  replace ((0 <=? t + timedelta_hours 24) && (t + timedelta_hours 24 <=? datetime_max))
    with true; [reflexivity|].
  symmetry. apply andb_true_iff. split; apply Z.leb_le;
    unfold timedelta_hours in *; lia.
Qed.

(** A claim that returned [True] found an account and an eligible one. *)
Lemma claim_bonus_true_inv self user_id now_check now_claim self1 :
  claim_bonus now_check now_claim user_id self = (Ok true, self1) ->
  exists u,
    account self user_id = Some u /\
    fst (can_claim_bonus now_check user_id self) = Ok true /\
    self1 = stored self user_id
              (mkUser (credits u + DAILY_BONUS) (videos_created u)
                      (Some now_claim) (referred_by u)).
Proof.
  intros Hrun.
  destruct (account self user_id) as [u|] eqn:Hacc.
  - exists u. split; [reflexivity|].
    destruct (fst (can_claim_bonus now_check user_id self)) as [[|]|e] eqn:Hc.
    + split; [reflexivity|].
      rewrite (claim_bonus_granted _ _ _ now_claim _ Hacc Hc) in Hrun.
      now injection Hrun as <-.
    + rewrite (claim_bonus_refused _ _ _ _ Hc) in Hrun. discriminate.
    + rewrite (claim_bonus_overflow _ _ _ _ _ Hc) in Hrun. discriminate.
  - rewrite (claim_bonus_missing _ _ _ _ Hacc) in Hrun. discriminate.
Qed.

(** X8.  After a claim that succeeded and stamped [now_claim], a second
    claim whose eligibility check reads the clock less than 24 hours after
    [now_claim] returns [False] and changes nothing: the bonus is granted
    once. *)
Theorem second_claim_within_a_day_is_refused (self self1 : UserDataManager)
    (user_id : Z) (now_check now_claim next_check next_claim : datetime)
    (Hfirst : claim_bonus now_check now_claim user_id self = (Ok true, self1))
    (Hrange : deadline_representable now_claim)
    (Hsoon : next_check < now_claim + timedelta_hours 24) :
  claim_bonus next_check next_claim user_id self1 = (Ok false, self1).
Proof.
  destruct (claim_bonus_true_inv _ _ _ _ _ Hfirst) as (u & _ & _ & ->).
  apply claim_bonus_refused.
  rewrite can_claim_bonus_after_stamp by exact Hrange. cbn [fst].
  f_equal. now apply Z.leb_gt.
Qed.

Lemma second_claim_within_a_day_is_refused_witness :
  claim_bonus new_year_2024 new_year_2024 7 only_user_7 =
    (Ok true, stored only_user_7 7 (mkUser 70 0 (Some new_year_2024) None)) /\
  deadline_representable new_year_2024 /\
  new_year_2024 + 1 < new_year_2024 + timedelta_hours 24 /\
  claim_bonus (new_year_2024 + 1) (new_year_2024 + 1) 7
    (stored only_user_7 7 (mkUser 70 0 (Some new_year_2024) None)) =
    (Ok false, stored only_user_7 7 (mkUser 70 0 (Some new_year_2024) None)).
Proof.
  assert (Hrange : deadline_representable new_year_2024)
    by (split; [discriminate|discriminate]).
  assert (Hsoon : new_year_2024 + 1 < new_year_2024 + timedelta_hours 24)
    by reflexivity.
  split; [reflexivity|]. split; [exact Hrange|]. split; [exact Hsoon|].
  exact (second_claim_within_a_day_is_refused only_user_7 _ 7
           new_year_2024 new_year_2024 (new_year_2024 + 1) (new_year_2024 + 1)
           eq_refl Hrange Hsoon).
Defined.

(** X9.  [last_bonus_claim] only moves forward: when a claim succeeds on an
    account that had claimed at [t], and the clock did not run backwards
    between the eligibility check and the stamp, the new stamp is at least
    24 hours after [t]. *)
Theorem claim_moves_stamp_forward (self self1 : UserDataManager) (user_id : Z)
    (u : user) (t now_check now_claim : datetime)
    (Hacc : account self user_id = Some u)
    (Hlast : last_bonus_claim u = Some t)
    (Hrun : claim_bonus now_check now_claim user_id self = (Ok true, self1))
    (Hclock : now_check <= now_claim) :
  t + timedelta_hours 24 <= now_claim /\
  exists u1, account self1 user_id = Some u1 /\
             last_bonus_claim u1 = Some now_claim.
Proof.
  destruct (claim_bonus_true_inv _ _ _ _ _ Hrun) as (u' & Hacc' & Hcan & ->).
  rewrite Hacc in Hacc'. injection Hacc' as <-.
  split.
  - rewrite can_claim_bonus_eq, Hacc, Hlast in Hcan. cbn [fst] in Hcan.
    unfold datetime_add in Hcan.
    destruct ((0 <=? t + timedelta_hours 24)
              && (t + timedelta_hours 24 <=? datetime_max)); [|discriminate].
    injection Hcan as Hle. apply Z.leb_le in Hle. lia.
  - eexists. split; [apply account_stored_same|reflexivity].
Qed.

Lemma claim_moves_stamp_forward_witness :
  account (stored only_user_7 7 (mkUser 70 0 (Some new_year_2024) None)) 7 =
    Some (mkUser 70 0 (Some new_year_2024) None) /\
  new_year_2024 + timedelta_hours 24 <= new_year_2024 + timedelta_hours 30.
Proof.
  split; [reflexivity|].
  exact (proj1 (claim_moves_stamp_forward
                  (stored only_user_7 7 (mkUser 70 0 (Some new_year_2024) None)) _ 7
                  (mkUser 70 0 (Some new_year_2024) None) new_year_2024
                  (new_year_2024 + timedelta_hours 30)
                  (new_year_2024 + timedelta_hours 30)
                  eq_refl eq_refl eq_refl (Z.le_refl _))).
Defined.

(** ** Admission: [start_command] and [check_join_callback] *)

Section Inert.
Context {A B : Type}.

Lemma inert_ret (a : A) : inert (ret a).
Proof. intros b. reflexivity. Qed.

Lemma inert_raise (e : exn) : inert (raise e : Handler A).
Proof. intros b. reflexivity. Qed.

Lemma inert_bind (c : Handler A) (k : A -> Handler B) :
  inert c -> (forall a, inert (k a)) -> inert (bind c k).
Proof.
  intros Hc Hk b. unfold bind. specialize (Hc b).
  destruct (c b) as [[a|e] b']; cbn [snd] in *; subst b'; [apply Hk|reflexivity].
Qed.

Lemma inert_try_except (body : Handler A) (handler : exn -> option (Handler A)) :
  inert body -> (forall e h, handler e = Some h -> inert h) ->
  inert (try_except body handler).
Proof.
  intros Hb Hh b. unfold try_except. specialize (Hb b).
  destruct (body b) as [[a|e] b']; cbn [snd] in *; subst b'; [reflexivity|].
  destruct (handler e) as [h|] eqn:E; [now apply (Hh e h)|reflexivity].
Qed.

(** What follows a step does not matter to the state when it is inert. *)
Lemma snd_bind_inert (c : Handler A) (k : A -> Handler B) b :
  (forall a, inert (k a)) -> snd (bind c k b) = snd (c b).
Proof.
  intros Hk. unfold bind. destruct (c b) as [[a|e] b']; [apply Hk|reflexivity].
Qed.
End Inert.

Lemma inert_await o : inert (await o).
Proof. destruct o; intros b; reflexivity. Qed.

Lemma inert_send_admin_notification : inert send_admin_notification.
Proof. intros [m o]. reflexivity. Qed.

Lemma db_run {A : Type} (c : Ledger A) (b : Bot) :
  db c b = (fst (c (db_manager b)), mkBot (snd (c (db_manager b))) (outbox b)).
Proof. unfold db, zoom. now destruct (c (db_manager b)). Qed.

(** Lines 131-132 and 161-162 on the account [add_user] has just created,
    for a referrer that passed the caller's test; [notify] is the message
    to the referrer with whatever handling the caller wraps around it. *)
Lemma referral_run (notify : Handler unit) m o user_id r :
  r <> user_id ->
  account m user_id = None ->
  (referred <- db (set_referrer user_id r) ;;
   if referred then
     _ <- db (update_credits r REFERRAL_BONUS) ;;
     notify
   else ret tt) (mkBot (stored m user_id new_account) o) =
  notify (mkBot (admitted m user_id (Some r)) o)
  \/ r = 0.
Proof.
  intros Hne Hnone. destruct (Z.eq_dec r 0) as [Hz|Hnz]; [now right|left].
  unfold bind at 1. rewrite db_run. cbn [db_manager outbox].
  rewrite set_referrer_eq, account_stored_same. cbn [referred_by new_account fst snd].
  rewrite stored_stored.
  unfold bind at 1. rewrite db_run. cbn [db_manager outbox].
  rewrite update_credits_eq, account_stored_other by exact Hne.
  unfold admitted. rewrite Hnone.
  apply Z.eqb_neq in Hnz, Hne. rewrite Hnz, Hne. cbn [negb andb].
  destruct (account m r); reflexivity.
Qed.

Lemma admitted_invalid_referrer m user_id r :
  account m user_id = None ->
  negb (r =? 0) && negb (r =? user_id) = false ->
  admitted m user_id (Some r) = stored m user_id new_account.
Proof. intros Hnone Hg. unfold admitted. now rewrite Hnone, Hg. Qed.

(** The state [start_command] leaves behind, whatever the Telegram calls
    do. *)
Lemma start_command_state env user_id referrer_id b :
  snd (start_command env user_id referrer_id b) =
  mkBot (if is_user_member_of_channel env
         then admitted (db_manager b) user_id referrer_id
         else db_manager b)
        (outbox b).
Proof.
  unfold start_command. destruct b as [m o]. cbn [db_manager outbox].
  destruct (is_user_member_of_channel env); [|apply inert_await].
  unfold bind at 1. rewrite db_run. cbn [db_manager outbox].
  rewrite add_user_eq.
  destruct (account m user_id) as [u|] eqn:Hacc; cbn [fst snd].
  - unfold admitted. rewrite Hacc.
    apply (inert_bind (ret tt)); [apply inert_ret|intros; apply inert_await].
  - rewrite snd_bind_inert by (intros; apply inert_await).
    rewrite snd_bind_inert
      by (intros; apply inert_bind;
          [apply inert_send_admin_notification|intros; apply inert_await]).
    destruct referrer_id as [r|]; [|unfold admitted; now rewrite Hacc].
    destruct (negb (r =? 0) && negb (r =? user_id)) eqn:Hg.
    + apply andb_true_iff in Hg. destruct Hg as [Hz Hu].
      apply negb_true_iff, Z.eqb_neq in Hz, Hu.
      destruct (referral_run (await (notify_referrer env)) m o user_id r Hu Hacc)
        as [-> | ?]; [apply inert_await|contradiction].
    + now rewrite admitted_invalid_referrer.
Qed.

(** The state [check_join_callback] leaves behind once its first answer
    and the "Access Granted" edit have gone through. *)
Lemma check_join_callback_state env user_id referrer_id b :
  join_answer env = None ->
  join_access_granted env = None ->
  snd (check_join_callback env user_id referrer_id b) =
  mkBot (if join_is_member env
         then admitted (db_manager b) user_id referrer_id
         else db_manager b)
        (outbox b).
Proof.
  intros Ha He. unfold check_join_callback. rewrite Ha, He.
  destruct b as [m o]. cbn [db_manager outbox].
  unfold bind at 1. cbn [await ret].
  destruct (join_is_member env); [|apply inert_await].
  unfold bind at 1. cbn [ret].
  unfold bind at 1. rewrite db_run. cbn [db_manager outbox].
  rewrite add_user_eq.
  destruct (account m user_id) as [u|] eqn:Hacc; cbn [fst snd].
  - unfold admitted. rewrite Hacc.
    apply (inert_bind (ret tt)); [apply inert_ret|intros; apply inert_await].
  - rewrite snd_bind_inert by (intros; apply inert_await).
    rewrite snd_bind_inert by (intros; apply inert_send_admin_notification).
    destruct referrer_id as [r|]; [|unfold admitted; now rewrite Hacc].
    destruct (negb (r =? 0) && negb (r =? user_id)) eqn:Hg.
    + apply andb_true_iff in Hg. destruct Hg as [Hz Hu].
      apply negb_true_iff, Z.eqb_neq in Hz, Hu.
      match goal with
      | |- snd (bind _ (fun referred => if referred then bind _ (fun _ => ?n) else _) _) = _ =>
          destruct (referral_run n m o user_id r Hu Hacc) as [-> | ?];
            [|contradiction]
      end.
      apply inert_try_except; [apply inert_await|].
      intros e h. destruct e; intros E; try discriminate.
      injection E as <-. apply inert_ret.
    + now rewrite admitted_invalid_referrer.
Qed.

Lemma admitted_known m user_id referrer_id u :
  account m user_id = Some u -> admitted m user_id referrer_id = m.
Proof. intros H. unfold admitted. now rewrite H. Qed.

Lemma admitted_has_account m user_id referrer_id :
  exists u, account (admitted m user_id referrer_id) user_id = Some u.
Proof.
  unfold admitted.
  destruct (account m user_id) as [u|] eqn:Hacc; [now exists u|].
  destruct referrer_id as [r|]; [|eexists; apply account_stored_same].
  destruct (negb (r =? 0) && negb (r =? user_id)) eqn:Hg;
    [|eexists; apply account_stored_same].
  apply andb_true_iff in Hg. destruct Hg as [_ Hu].
  apply negb_true_iff, Z.eqb_neq in Hu.
  destruct (account m r); cbv zeta.
  - eexists. rewrite account_stored_other by congruence. apply account_stored_same.
  - eexists. apply account_stored_same.
Qed.

(** X10.  A member without an account who starts the bot with the id [r]
    of someone else (not 0) as start parameter gets an account with the
    starting credits and [referred_by = r]; the referrer's balance, if the
    referrer has an account, grows by [REFERRAL_BONUS]; no other account
    changes.  This is the ledger left behind whatever the Telegram calls
    do: when the message to the referrer fails, the exception leaves
    [start_command] and the credit stays. *)
Theorem start_command_referral (env : start_env) (user_id r : Z) (b : Bot)
    (Hmember : is_user_member_of_channel env = true)
    (Hnew : account (db_manager b) user_id = None)
    (Hnonzero : r <> 0) (Hother : r <> user_id) :
  let m := db_manager (snd (start_command env user_id (Some r) b)) in
  account m user_id = Some (mkUser STARTING_CREDITS 0 None (Some r)) /\
  account m r =
    match account (db_manager b) r with
    | Some ur => Some (mkUser (credits ur + REFERRAL_BONUS) (videos_created ur)
                              (last_bonus_claim ur) (referred_by ur))
    | None => None
    end /\
  (forall j, j <> user_id -> j <> r -> account m j = account (db_manager b) j) /\
  (forall e, notify_referrer env = Some e ->
             fst (start_command env user_id (Some r) b) = Raise e).
Proof.
  cbv zeta. rewrite start_command_state, Hmember. cbn [db_manager].
  unfold admitted. rewrite Hnew.
  pose proof Hnonzero as Hz. pose proof Hother as Hu.
  apply Z.eqb_neq in Hz, Hu. rewrite Hz, Hu. cbn [negb andb]. cbv zeta.
  split; [|split; [|split]].
  - destruct (account (db_manager b) r).
    + rewrite account_stored_other by congruence. apply account_stored_same.
    + apply account_stored_same.
  - destruct (account (db_manager b) r) as [ur|] eqn:Hr.
    + apply account_stored_same.
    + now rewrite account_stored_other.
  - intros j Hj Hjr. destruct (account (db_manager b) r).
    + now rewrite !account_stored_other.
    + now rewrite account_stored_other.
  - intros e He. unfold start_command. rewrite Hmember, Hz, Hu. cbn [negb andb].
    destruct b as [m o]. cbn [db_manager] in *.
    unfold bind at 1. rewrite db_run. cbn [db_manager outbox].
    rewrite add_user_eq, Hnew. cbn [fst snd].
    unfold bind at 1. unfold bind at 1.
    destruct (referral_run (await (notify_referrer env)) m o user_id r Hother Hnew)
      as [-> | ?]; [|contradiction].
    now rewrite He.
Qed.

Lemma start_command_referral_witness :
  account (db_manager (mkBot only_user_3 [])) 7 = None /\
  account (db_manager (snd (start_command member_start 7 (Some 3)
                              (mkBot only_user_3 [])))) 3 =
  Some (mkUser 80 0 None None).
Proof.
  split; [reflexivity|].
  exact (proj1 (proj2 (start_command_referral member_start 7 3
                         (mkBot only_user_3 []) eq_refl eq_refl
                         ltac:(discriminate) ltac:(discriminate)))).
Defined.

(** X11.  [start_command] changes nothing in the bot's state for a user who
    is not a member of the channel, and nothing for a user who already has
    an account, whatever the start parameter. *)
Theorem start_command_leaves_known_users (env : start_env) (user_id : Z)
    (referrer_id : option Z) (b : Bot)
    (Hold : is_user_member_of_channel env = false \/
            exists u, account (db_manager b) user_id = Some u) :
  snd (start_command env user_id referrer_id b) = b.
Proof.
  rewrite start_command_state. destruct b as [m o]. cbn [db_manager outbox] in *.
  destruct Hold as [-> | (u & Hu)]; [reflexivity|].
  rewrite (admitted_known _ _ _ _ Hu).
  now destruct (is_user_member_of_channel env).
Qed.

Lemma start_command_leaves_known_users_witness :
  (is_user_member_of_channel member_start = false \/
   exists u, account (db_manager (mkBot only_user_7 [])) 7 = Some u) /\
  snd (start_command member_start 7 (Some 3) (mkBot only_user_7 [])) =
  mkBot only_user_7 [].
Proof.
  assert (H : is_user_member_of_channel member_start = false \/
              exists u, account (db_manager (mkBot only_user_7 [])) 7 = Some u)
    by (right; exists new_account; reflexivity).
  split; [exact H|].
  exact (start_command_leaves_known_users member_start 7 (Some 3)
           (mkBot only_user_7 []) H).
Defined.

(** X12.  A referral is rewarded once: after a member's [start_command],
    a further [start_command] of the same user, with any start parameter
    and any outcome of the Telegram calls, leaves the state as the first
    one left it. *)
Theorem start_command_twice (env1 env2 : start_env) (user_id : Z)
    (referrer1 referrer2 : option Z) (b : Bot)
    (Hmember : is_user_member_of_channel env1 = true) :
  snd (start_command env2 user_id referrer2
         (snd (start_command env1 user_id referrer1 b))) =
  snd (start_command env1 user_id referrer1 b).
Proof.
  rewrite (start_command_state env2).
  rewrite (start_command_state env1), Hmember. cbn [db_manager outbox].
  destruct (admitted_has_account (db_manager b) user_id referrer1) as (u & Hu).
  rewrite (admitted_known _ _ _ _ Hu).
  now destruct (is_user_member_of_channel env2).
Qed.

Lemma start_command_twice_witness :
  is_user_member_of_channel member_start = true /\
  account (db_manager
             (snd (start_command member_start 7 (Some 3)
                     (snd (start_command member_start 7 (Some 3)
                             (mkBot only_user_3 [])))))) 3 =
  Some (mkUser 80 0 None None).
Proof.
  split; [reflexivity|].
  rewrite (start_command_twice member_start member_start 7 (Some 3) (Some 3)
             (mkBot only_user_3 []) eq_refl).
  reflexivity.
Defined.

(** X13.  The "Verify Membership" button admits like [/start]: once its
    first answer and the "Access Granted" edit have gone through,
    [check_join_callback] leaves the state [start_command] leaves for the
    same membership, user and referrer, whatever the other Telegram calls
    do.  When the first answer fails, or the edit fails for a member,
    nothing changes: no account is created. *)
Theorem check_join_callback_admits_like_start (jenv : join_env) (senv : start_env)
    (user_id : Z) (referrer_id : option Z) (b : Bot)
    (Hsame : join_is_member jenv = is_user_member_of_channel senv) :
  (join_answer jenv = None -> join_access_granted jenv = None ->
   snd (check_join_callback jenv user_id referrer_id b) =
   snd (start_command senv user_id referrer_id b)) /\
  (forall e, join_answer jenv = Some e ->
             check_join_callback jenv user_id referrer_id b = (Raise e, b)) /\
  (forall e, join_answer jenv = None -> join_is_member jenv = true ->
             join_access_granted jenv = Some e ->
             check_join_callback jenv user_id referrer_id b = (Raise e, b)).
Proof.
  split; [|split].
  - intros Ha He.
    now rewrite (check_join_callback_state _ _ _ _ Ha He), start_command_state, Hsame.
  - intros e Ha. unfold check_join_callback. now rewrite Ha.
  - intros e Ha Hm He. unfold check_join_callback. now rewrite Ha, Hm, He.
Qed.

Lemma check_join_callback_admits_like_start_witness :
  join_is_member member_join = is_user_member_of_channel member_start /\
  account (db_manager (snd (check_join_callback member_join 7 (Some 3)
                              (mkBot only_user_3 [])))) 3 =
  Some (mkUser 80 0 None None).
Proof.
  split; [reflexivity|].
  destruct (check_join_callback_admits_like_start member_join member_start 7
              (Some 3) (mkBot only_user_3 []) eq_refl) as [Hsame _].
  rewrite (Hsame eq_refl eq_refl). reflexivity.
Defined.

(** ** More on the generation flow *)

Lemma process_prompt_not_started env user_id b e :
  processing_msg env = Some e ->
  process_prompt env user_id b = (Raise e, b).
Proof. intros H. unfold process_prompt. now rewrite H. Qed.

(** X14.  A generation that was let through by [generate_video_command]
    never overdraws: if the pre-check answered [PROMPT_INPUT], the user has
    an account with at least [VIDEO_COST] credits, and after
    [process_prompt] on that state, whatever the request and the Telegram
    calls do, the account is either as it was or charged once, with a
    balance that is not negative. *)
Theorem gate_then_generation_never_overdraws (reply : option exn)
    (env : prompt_env) (user_id : Z) (b : Bot)
    (Hgate : fst (generate_video_command reply user_id b) = Ok PROMPT_INPUT) :
  exists u0 u,
    account (db_manager b) user_id = Some u0 /\
    VIDEO_COST <= credits u0 /\
    account (db_manager (snd (process_prompt env user_id b))) user_id = Some u /\
    (u = u0 \/ u = charged u0) /\
    0 <= credits u.
Proof.
  unfold generate_video_command in Hgate.
  unfold bind at 1 in Hgate. rewrite db_run, get_user_eq in Hgate.
  cbn [fst snd] in Hgate.
  destruct (account (db_manager b) user_id) as [u0|] eqn:Hacc; [|discriminate].
  assert (Hcost : VIDEO_COST <= credits u0).
  { destruct (Z.ltb_spec (credits u0) VIDEO_COST) as [Hlt|Hge]; [|exact Hge].
    destruct reply; cbn in Hgate; discriminate. }
  exists u0.
  destruct (reports_success (api_response env)) eqn:Hok.
  - destruct (processing_msg env) as [e|] eqn:Hmsg.
    + exists u0. rewrite (process_prompt_not_started _ _ _ _ Hmsg). cbn [snd].
      repeat split; auto. unfold VIDEO_COST in Hcost. lia.
    + exists (charged u0).
      rewrite (process_prompt_success _ _ _ Hmsg Hok), debit_and_record, Hacc.
      cbn [db_manager]. rewrite account_stored_same.
      repeat split; auto. cbn. lia.
  - exists u0. rewrite (process_prompt_failure _ _ _ Hok).
    repeat split; auto. unfold VIDEO_COST in Hcost. lia.
Qed.

Lemma gate_then_generation_never_overdraws_witness :
  fst (generate_video_command None 7 (mkBot only_user_7 [])) = Ok PROMPT_INPUT /\
  exists u, account (db_manager (snd (process_prompt (all_delivered video_ready) 7
                                        (mkBot only_user_7 [])))) 7 = Some u /\
            0 <= credits u.
Proof.
  split; [reflexivity|].
  destruct (gate_then_generation_never_overdraws None (all_delivered video_ready)
              7 (mkBot only_user_7 []) eq_refl)
    as (u0 & u & _ & _ & Hu & _ & Hpos).
  now exists u.
Defined.

(** X15.  A user whose balance is below [VIDEO_COST] is not asked for a
    prompt: [generate_video_command] ends the conversation (when its reply
    is delivered) and leaves the state unchanged. *)
Theorem generation_refused_when_short (reply : option exn) (user_id : Z)
    (b : Bot) (u : user)
    (Hacc : account (db_manager b) user_id = Some u)
    (Hshort : credits u < VIDEO_COST) :
  generate_video_command reply user_id b =
  (match reply with
   | None => Ok ConversationHandler_END
   | Some e => Raise e
   end, b).
Proof.
  unfold generate_video_command. unfold bind at 1.
  rewrite db_run, get_user_eq, Hacc. cbn [fst snd].
  apply Z.ltb_lt in Hshort. rewrite Hshort.
  destruct b as [m o]. destruct reply; reflexivity.
Qed.

Lemma generation_refused_when_short_witness :
  account (db_manager (mkBot (stored no_accounts 7 (mkUser 9 5 None None)) [])) 7 =
    Some (mkUser 9 5 None None) /\
  9 < VIDEO_COST /\
  fst (generate_video_command None 7
         (mkBot (stored no_accounts 7 (mkUser 9 5 None None)) [])) =
  Ok ConversationHandler_END.
Proof.
  split; [reflexivity|]. split; [reflexivity|].
  now rewrite (generation_refused_when_short None 7
                 (mkBot (stored no_accounts 7 (mkUser 9 5 None None)) [])
                 (mkUser 9 5 None None) eq_refl eq_refl).
Defined.

Section Completes.
Context {A : Type}.

Lemma completes_await_none : completes (await None).
Proof. intros b. now exists tt. Qed.

Lemma completes_try_except (body : Handler A) (handler : exn -> option (Handler A)) :
  (forall e, exists h, handler e = Some h /\ completes h) ->
  completes (try_except body handler).
Proof.
  intros Hh b. unfold try_except.
  destruct (body b) as [[a|e] b']; [now exists a|].
  destruct (Hh e) as (h & -> & Hc). apply Hc.
Qed.

Lemma completes_try_finally (body : Handler A) (cleanup : Handler unit) :
  completes body -> completes cleanup -> completes (try_finally body cleanup).
Proof.
  intros Hb Hc b. unfold try_finally.
  destruct (Hb b) as (a & Ha). destruct (body b) as [r b']. cbn [fst] in Ha. subst r.
  destruct (Hc b') as ([] & Hu). destruct (cleanup b') as [r b''].
  cbn [fst] in Hu. subst r. now exists a.
Qed.
End Completes.

(** X16.  No failure of the request, of the video delivery or of the
    "couldn't create" notice leaves [process_prompt]: when the progress
    message is sent, the two failure notices of the [except] clauses can be
    delivered and the progress message can be deleted, [process_prompt]
    returns [ConversationHandler.END], whatever the endpoint answers. *)
Theorem process_prompt_returns_end (env : prompt_env) (user_id : Z) (b : Bot)
    (Hmsg : processing_msg env = None)
    (Htimeout : timeout_notice env = None)
    (Herror : error_notice env = None)
    (Hdelete : delete_processing_msg env = None) :
  fst (process_prompt env user_id b) = Ok ConversationHandler_END.
Proof.
  unfold process_prompt. rewrite Hmsg, Htimeout, Herror, Hdelete.
  match goal with
  | |- fst (bind _ (fun _ => bind ?body _) b) = _ => set (attempt := body)
  end.
  assert (Hbody : completes attempt).
  { apply completes_try_finally; [|apply completes_await_none].
    apply completes_try_except. intros e.
    destruct e; eexists; (split; [reflexivity|apply completes_await_none]). }
  clearbody attempt. unfold bind, await, ret.
  destruct (Hbody b) as (a & Ha). destruct (attempt b) as [r s'].
  cbn [fst] in Ha. subst r. reflexivity.
Qed.

Lemma process_prompt_returns_end_witness :
  processing_msg request_times_out = None /\
  process_prompt request_times_out 7 (mkBot only_user_7 []) =
  (Ok ConversationHandler_END, mkBot only_user_7 []).
Proof.
  split; [reflexivity|].
  pose proof (process_prompt_returns_end request_times_out 7
                (mkBot only_user_7 []) eq_refl eq_refl eq_refl eq_refl) as H.
  destruct (process_prompt request_times_out 7 (mkBot only_user_7 []))
    as [r s] eqn:E.
  cbn [fst] in H. rewrite H. f_equal.
  change s with (snd (r, s)). rewrite <- E. reflexivity.
Defined.

(** ** More on the broadcast and the notifications *)

(** One turn of the loop. *)
Lemma broadcast_loop_cons copy i rest sent failed b :
  broadcast_loop copy (i :: rest) sent failed b =
  let b1 := mkBot (db_manager b) (outbox b ++ [CopyAttempt i]) in
  match copy i with
  | None => broadcast_loop copy rest (sent + 1) failed b1
  | Some e =>
      if blocked_the_bot e
      then broadcast_loop copy rest sent (failed + 1) b1
      else (Raise e, b1)
  end.
Proof.
  cbn [broadcast_loop].
  destruct (copy i) as [e|];
    cbv beta iota zeta delta [bind try_except log modify await raise ret];
    [destruct (blocked_the_bot e)|]; reflexivity.
Qed.

Lemma broadcast_loop_keeps_ledger copy ids sent failed :
  keeps_ledger (broadcast_loop copy ids sent failed).
Proof.
  revert sent failed. induction ids as [|i rest IH]; intros sent failed b.
  - reflexivity.
  - rewrite broadcast_loop_cons. cbv zeta.
    destruct (copy i) as [e|]; [destruct (blocked_the_bot e)|];
      try rewrite IH; reflexivity.
Qed.

(** X17.  A broadcast never changes the ledger, whatever the deliveries
    and the other Telegram calls do and however it ends. *)
Theorem admin_broadcast_send_keeps_ledger (env : broadcast_env) (b : Bot) :
  db_manager (snd (admin_broadcast_send env b)) = db_manager b.
Proof.
  unfold admin_broadcast_send.
  destruct (answer_query env); [reflexivity|].
  destruct (edit_message env); [reflexivity|].
  unfold bind at 1. cbn [await ret]. unfold bind at 1. cbn [ret].
  unfold bind at 1. rewrite db_run. cbn [get_all_user_ids gets fst snd].
  unfold get_all_user_ids, gets. cbn [fst snd].
  unfold bind at 1.
  pose proof (broadcast_loop_keeps_ledger (copy_message env)
                (Dict.keys (users_data (db_manager b))) 0 0
                {| db_manager := db_manager b; outbox := outbox b |}) as Hloop.
  destruct (broadcast_loop (copy_message env)
              (Dict.keys (users_data (db_manager b))) 0 0
              {| db_manager := db_manager b; outbox := outbox b |})
    as [[counts|e] b1]; cbn [snd db_manager] in Hloop; [|exact Hloop].
  destruct (send_report env); [exact Hloop|].
  destruct (broadcast_menu env); exact Hloop.
Qed.

(** X18.  The first delivery that raises anything but [Forbidden] or
    [BadRequest] ends the broadcast: that exception leaves the loop, the
    recipients up to and including that one have been tried, in order, and
    none after it. *)
Theorem broadcast_loop_stops_at_first_other_failure
    (copy : string -> option exn) (before after_it : list string) (i : string)
    (e : exn) (sent failed : Z) (b : Bot)
    (Hbefore : failures_blocked copy before)
    (Hfail : copy i = Some e)
    (Hother : blocked_the_bot e = false) :
  broadcast_loop copy (before ++ i :: after_it) sent failed b =
  (Raise e,
   mkBot (db_manager b) (outbox b ++ map CopyAttempt (before ++ [i]))).
Proof.
  revert sent failed b. induction before as [|j before IH]; intros sent failed b.
  - cbn [app map]. rewrite broadcast_loop_cons, Hfail, Hother. reflexivity.
  - assert (Hrest : failures_blocked copy before).
    { intros k e' Hin. apply Hbefore. now right. }
    cbn [app map]. rewrite broadcast_loop_cons. cbv zeta.
    destruct (copy j) as [e'|] eqn:Hj.
    + rewrite (Hbefore j e' (or_introl eq_refl) Hj).
      rewrite (IH Hrest). cbn [db_manager outbox].
      now rewrite <- app_assoc.
    + rewrite (IH Hrest). cbn [db_manager outbox].
      now rewrite <- app_assoc.
Qed.

Lemma broadcast_loop_stops_at_first_other_failure_witness :
  failures_blocked (second_fails_with RetryAfter) ["1"]%string /\
  broadcast_loop (second_fails_with RetryAfter) ["1"; "2"; "3"]%string 0 0 three_users =
  (Raise RetryAfter,
   mkBot (db_manager three_users) [CopyAttempt "1"; CopyAttempt "2"]).
Proof.
  assert (H : failures_blocked (second_fails_with RetryAfter) ["1"]%string).
  { intros k e [<- | []]. discriminate. }
  split; [exact H|].
  exact (broadcast_loop_stops_at_first_other_failure
           (second_fails_with RetryAfter) ["1"]%string ["3"]%string "2"%string
           RetryAfter 0 0 three_users H eq_refl eq_refl).
Defined.

(** X19.  Notifying the admins never fails and never changes the state:
    whatever each [send_message] to an admin does, the loop of
    [send_admin_notification] goes through all of [ADMIN_IDS] and returns,
    which is what the handlers' [send_admin_notification] step assumes. *)
Theorem send_admin_notification_never_fails (ADMIN_IDS : list Z)
    (send : Z -> option exn) (b : Bot) :
  Admin.send_admin_notification ADMIN_IDS send b = (Ok tt, b) /\
  Admin.send_admin_notification ADMIN_IDS send b = send_admin_notification b.
Proof.
  assert (Hloop : forall bb, Admin.notify_each send ADMIN_IDS bb = (Ok tt, bb)).
  { induction ADMIN_IDS as [|a rest IH]; intros bb; [reflexivity|].
    cbn [Admin.notify_each]. unfold bind, try_except.
    destruct (send a); cbn [await raise ret]; apply IH. }
  assert (H : Admin.send_admin_notification ADMIN_IDS send b = (Ok tt, b)).
  { unfold Admin.send_admin_notification. unfold bind at 1.
    rewrite db_run. cbn [fst snd]. unfold get_all_user_ids, gets. cbn [fst snd].
    rewrite Hloop. now destruct b. }
  split; [exact H|]. rewrite H. now destruct b.
Qed.

(** ** The menu handlers and the account they expect *)

(** X20.  The menu handlers take the account for granted: for a user
    without one, "Generate Video" and "My Account" raise [TypeError] and
    the "Claim Daily Bonus" button raises [KeyError], each before any reply
    is sent and without changing the state. *)
Theorem menu_handlers_need_an_account (reply : option exn)
    (now_check now_claim : datetime) (user_id : Z) (b : Bot)
    (Hnone : account (db_manager b) user_id = None) :
  generate_video_command reply user_id b = (Raise TypeError, b) /\
  my_account_command reply user_id b = (Raise TypeError, b) /\
  claim_bonus_callback now_check now_claim reply user_id b =
    (Raise (KeyError (str user_id)), b).
Proof.
  destruct b as [m o]. cbn [db_manager] in Hnone.
  split; [|split].
  - unfold generate_video_command. unfold bind at 1.
    rewrite db_run, get_user_eq. cbn [fst snd db_manager outbox]. now rewrite Hnone.
  - unfold my_account_command. unfold bind at 1.
    rewrite db_run, get_user_eq. cbn [fst snd db_manager outbox]. now rewrite Hnone.
  - unfold claim_bonus_callback. unfold bind at 1.
    rewrite db_run. cbn [db_manager outbox].
    now rewrite (claim_bonus_missing _ _ _ _ Hnone).
Qed.

Lemma menu_handlers_need_an_account_witness :
  account (db_manager (mkBot only_user_3 [])) 7 = None /\
  claim_bonus_callback new_year_2024 new_year_2024 None 7 (mkBot only_user_3 []) =
  (Raise (KeyError "7"), mkBot only_user_3 []).
Proof.
  split; [reflexivity|].
  exact (proj2 (proj2 (menu_handlers_need_an_account None new_year_2024
                         new_year_2024 7 (mkBot only_user_3 []) eq_refl))).
Defined.

(** X21.  For a user with an account, [claim_bonus_callback] grants the
    bonus exactly when [can_claim_bonus] answers [True], and its outcome is
    that of the answer it sends: the account is found again for the new
    balance, and an answer that cannot be delivered does not take the
    bonus back. *)
Theorem claim_bonus_callback_spec (now_check now_claim : datetime)
    (answer : option exn) (user_id : Z) (b : Bot) (u : user)
    (Hacc : account (db_manager b) user_id = Some u) :
  (fst (can_claim_bonus now_check user_id (db_manager b)) = Ok true ->
   claim_bonus_callback now_check now_claim answer user_id b =
   (match answer with None => Ok tt | Some e => Raise e end,
    mkBot (stored (db_manager b) user_id
             (mkUser (credits u + DAILY_BONUS) (videos_created u)
                     (Some now_claim) (referred_by u)))
          (outbox b)))
  /\
  (fst (can_claim_bonus now_check user_id (db_manager b)) = Ok false ->
   claim_bonus_callback now_check now_claim answer user_id b =
   (match answer with None => Ok tt | Some e => Raise e end, b)).
Proof.
  destruct b as [m o]. cbn [db_manager outbox] in *.
  split; intros Hcan; unfold claim_bonus_callback; unfold bind at 1;
    rewrite db_run; cbn [db_manager outbox].
  - rewrite (claim_bonus_granted _ _ _ now_claim _ Hacc Hcan). cbn [fst snd].
    unfold bind at 1. rewrite db_run, get_user_eq. cbn [db_manager outbox fst snd].
    rewrite account_stored_same. destruct answer; reflexivity.
  - rewrite (claim_bonus_refused _ _ _ now_claim Hcan). cbn [fst snd].
    destruct answer; reflexivity.
Qed.

Lemma claim_bonus_callback_spec_witness :
  account (db_manager (mkBot only_user_7 [])) 7 = Some new_account /\
  account (db_manager (snd (claim_bonus_callback new_year_2024 new_year_2024
                              (Some Forbidden) 7 (mkBot only_user_7 [])))) 7 =
  Some (mkUser 70 0 (Some new_year_2024) None).
Proof.
  split; [reflexivity|].
  destruct (claim_bonus_callback_spec new_year_2024 new_year_2024
              (Some Forbidden) 7 (mkBot only_user_7 []) new_account eq_refl)
    as [Hyes _].
  rewrite (Hyes eq_refl). reflexivity.
Defined.

(** X22.  No referral is recorded for a start parameter that is missing,
    is 0 (falsy in the test of line 131) or is the user's own id: a member
    without an account then gets the plain new account, and nobody's
    credits change. *)
Theorem start_command_without_referral (env : start_env) (user_id : Z)
    (referrer_id : option Z) (b : Bot)
    (Hmember : is_user_member_of_channel env = true)
    (Hnew : account (db_manager b) user_id = None)
    (Href : referrer_id = None \/ referrer_id = Some 0 \/
            referrer_id = Some user_id) :
  snd (start_command env user_id referrer_id b) =
  mkBot (stored (db_manager b) user_id new_account) (outbox b).
Proof.
  rewrite start_command_state, Hmember. f_equal.
  unfold admitted. rewrite Hnew.
  destruct Href as [-> | [-> | ->]]; [reflexivity|reflexivity|].
  now rewrite Z.eqb_refl, andb_false_r.
Qed.

Lemma start_command_without_referral_witness :
  account (db_manager (mkBot only_user_3 [])) 7 = None /\
  account (db_manager (snd (start_command member_start 7 (Some 0)
                              (mkBot only_user_3 [])))) 7 = Some new_account.
Proof.
  split; [reflexivity|].
  rewrite (start_command_without_referral member_start 7 (Some 0)
             (mkBot only_user_3 []) eq_refl eq_refl (or_intror (or_introl eq_refl))).
  reflexivity.
Defined.
